(** * Chessboard camera calibration and pose tracking: a shallow embedding

    The development follows the Python sources

    - [src/utils/chessboard_utils.py]  (corner detection, object points,
      base64 image decoding),
    - [src/models/camera_calibration.py]  (batch intrinsics calibration and
      its [do_command] entry point),
    - [src/models/chessboard.py]  (single frame pose query).

    Python values are embedded as Rocq data, Python exceptions as an
    explicit [Raise] outcome, local variables that survive an exception as
    explicit state, and the OpenCV entry points as an interface of oracles
    ([Extern]), since their numerical content is not part of this repository. *)

From Stdlib Require Import String Ascii ZArith List Bool Lia.
From Stdlib Require Import Floats.SpecFloat.
From Stdlib Require Import DecimalString.
Import ListNotations.

Set Warnings "-register-all".

Local Open Scope string_scope.
Local Open Scope list_scope.
Local Open Scope Z_scope.

(* ================================================================== *)
(** * Python outcomes: a value or a raised exception *)

Inductive exn_class :=
| BinasciiError
| ValueError
| TypeError
| AttributeError
| IndexError
| ZeroDivisionError
| UnboundLocalError
| NotImplementedError
| Cv2Error
| PlainException.

Record exn := mkExn { exn_kind : exn_class; exn_msg : string }.

Inductive outcome (A : Type) :=
| Return (a : A)
| Raise (e : exn).
Arguments Return {A} a.
Arguments Raise {A} e.

Definition obind {A B} (m : outcome A) (f : A -> outcome B) : outcome B :=
  match m with
  | Return a => f a
  | Raise e => Raise e
  end.

Declare Scope py_scope.
Delimit Scope py_scope with py.
Notation "x <- m ;; k" := (obind m (fun x => k))
  (at level 61, m at next level, right associativity) : py_scope.
Notation "' pat <- m ;; k" := (obind m (fun x => match x with pat => k end))
  (at level 61, pat pattern, m at next level, right associativity) : py_scope.
Local Open Scope py_scope.

(** [seq[i]] for a constant, non negative index [i]. *)
Definition py_index {A} (l : list A) (i : nat) : outcome A :=
  match nth_error l i with
  | Some a => Return a
  | None => Raise (mkExn IndexError "index out of range")
  end.

(* ================================================================== *)
(** * IEEE 754 numbers

    [np.float32] array entries and Python [float]s (binary64) are the
    executable IEEE numbers of [SpecFloat], at their two precisions. *)

Module F32.
Definition prec : Z := 24.
Definition emax : Z := 128.
Definition t := spec_float.
Definition zero : t := S754_zero false.
(** integer to float32, round to nearest even *)
Definition of_Z (n : Z) : t := binary_normalize prec emax n 0 false.
Definition mul : t -> t -> t := SFmul prec emax.
(** the cast of a Python float to the array's dtype *)
Definition of_f64 (x : spec_float) : t :=
  match x with
  | S754_finite s m e => binary_round prec emax s m e
  | _ => x
  end.
Definition is_finite (x : t) : bool :=
  match x with
  | S754_zero _ | S754_finite _ _ _ => true
  | _ => false
  end.
End F32.

Module F64.
Definition prec : Z := 53.
Definition emax : Z := 1024.
Definition t := spec_float.
Definition zero : t := S754_zero false.
Definition of_Z (n : Z) : t := binary_normalize prec emax n 0 false.
Definition add : t -> t -> t := SFadd prec emax.
Definition mul : t -> t -> t := SFmul prec emax.
Definition div : t -> t -> t := SFdiv prec emax.
Definition ltb : t -> t -> bool := SFltb.
End F64.

(** Python's [x / n] for a float [x] and an int [n]. *)
Definition py_truediv (x : F64.t) (n : Z) : outcome F64.t :=
  if n =? 0 then Raise (mkExn ZeroDivisionError "float division by zero")
  else Return (F64.div x (F64.of_Z n)).

(* ================================================================== *)
(** * The numpy operations used by the object point generator *)

Module Np.

(** A three dimensional integer array seen through its index function,
    as [np.mgrid] and [.T] produce views and not copies. *)
Record array3 := mk3 {
  dim0 : nat; dim1 : nat; dim2 : nat;
  get3 : nat -> nat -> nat -> Z
}.

(** [np.zeros((n, m), np.float32)] *)
Definition zeros (n : Z) (m : nat) : outcome (list (list F32.t)) :=
  if n <? 0
  then Raise (mkExn ValueError "negative dimensions are not allowed")
  else Return (repeat (repeat F32.zero m) (Z.to_nat n)).

(** The index planes of a grid of [a] by [b] points: plane 0 holds the
    first index and plane 1 the second. *)
Definition indices (a b : nat) : array3 :=
  mk3 2 a b (fun k i j => if Nat.eqb k 0 then Z.of_nat i else Z.of_nat j).

(** [np.mgrid[0:a, 0:b]]: shape (2, a, b); numpy computes the two sizes
    [a] and [b] and refuses a negative one. *)
Definition mgrid (a b : Z) : outcome array3 :=
  if (a <? 0) || (b <? 0)
  then Raise (mkExn ValueError "negative dimensions are not allowed")
  else Return (indices (Z.to_nat a) (Z.to_nat b)).

(** [X.T] reverses the axes. *)
Definition transpose (X : array3) : array3 :=
  mk3 (dim2 X) (dim1 X) (dim0 X) (fun a b c => get3 X c b a).

(** The entries in C order (last axis fastest). *)
Definition ravel (X : array3) : list Z :=
  flat_map (fun a =>
    flat_map (fun b =>
      map (fun c => get3 X a b c) (seq 0 (dim2 X)))
      (seq 0 (dim1 X)))
    (seq 0 (dim0 X)).

Fixpoint pairs (l : list Z) : list (list Z) :=
  match l with
  | x :: y :: t => [x; y] :: pairs t
  | _ => []
  end.

(** [X.reshape(-1, 2)] *)
Definition reshape_m1_2 (X : array3) : outcome (list (list Z)) :=
  let flat := ravel X in
  if Nat.even (length flat) then Return (pairs flat)
  else Raise (mkExn ValueError "cannot reshape array").

(** [dst[:, :2] = src] for a float32 [dst] of shape (N, 3) and an integer
    [src] of shape (M, 2): the rows are paired when [M = N], the single
    row is broadcast when [M = 1], and numpy refuses other shapes. *)
Definition assign_cols2 (dst : list (list F32.t)) (src : list (list Z))
  : outcome (list (list F32.t)) :=
  let put (d : list F32.t) (s : list Z) := map F32.of_Z s ++ skipn 2 d in
  if Nat.eqb (length src) (length dst)
  then Return (map (fun ds => put (fst ds) (snd ds)) (combine dst src))
  else
    match src with
    | [s] => Return (map (fun d => put d s) dst)
    | _ => Raise (mkExn ValueError "could not broadcast input array")
    end.

(** [arr *= k] for a float32 array and a Python float. *)
Definition imul (arr : list (list F32.t)) (k : F64.t) : list (list F32.t) :=
  map (map (fun x => F32.mul x (F32.of_f64 k))) arr.

End Np.

(* ================================================================== *)
(** * [chessboard_utils.generate_object_points] *)

Definition generate_object_points (pattern_size : list Z) (square_size : F64.t)
  : outcome (list (list F32.t)) :=
  p1 <- py_index pattern_size 1 ;;
  p0 <- py_index pattern_size 0 ;;
  objp <- Np.zeros (p1 * p0) 3 ;;
  grid <- Np.mgrid p0 p1 ;;
  grid <- Np.reshape_m1_2 (Np.transpose grid) ;;
  objp <- Np.assign_cols2 objp grid ;;
  Return (Np.imul objp square_size).

(** The index grid after [.T.reshape(-1, 2)]: row [j * a + i] is [[i; j]]. *)
Definition index_grid (a b : nat) : list (list Z) :=
  flat_map (fun j => map (fun i => [Z.of_nat i; Z.of_nat j]) (seq 0 a))
           (seq 0 b).


(* ================================================================== *)
(** * Python values that travel through [do_command] ([ValueTypes]) *)

Inductive value :=
| VNone
| VBool (b : bool)
| VInt (n : Z)
| VFloat (x : F64.t)
| VStr (s : string)
| VList (l : list value)
| VDict (d : list (string * value)).

(** A Python [dict] with string keys, in insertion order. *)
Definition dict := list (string * value).

Fixpoint dict_get (d : dict) (k : string) : option value :=
  match d with
  | [] => None
  | (k', v) :: d' => if String.eqb k k' then Some v else dict_get d' k
  end.

Definition dict_keys (d : dict) : list string := map fst d.

(** [str(n)] for a non negative int. *)
Definition str_of_nat (n : nat) : string :=
  NilEmpty.string_of_uint (Nat.to_uint n).

(** A decimal literal [m / 10^k] of the source, correctly rounded to
    binary64 as Python's parser does. *)
Definition decimal (m : positive) (k : Z) : F64.t :=
  F64.div (S754_finite false m 0) (S754_finite false (Z.to_pos (10 ^ k)) 0).

(* ================================================================== *)
(** * [base64.b64decode] of the Python standard library

    The repository calls [base64.b64decode(s)] with its default
    [validate=False]: a [str] is first encoded as ASCII, characters outside
    the base64 alphabet are discarded, decoding stops at a complete
    padding, and a trailing partial quantum raises [binascii.Error]. *)

Module Base64.

Definition table_a2b (c : ascii) : option Z :=
  let n := Z.of_nat (nat_of_ascii c) in
  if (65 <=? n) && (n <=? 90) then Some (n - 65)
  else if (97 <=? n) && (n <=? 122) then Some (n - 97 + 26)
  else if (48 <=? n) && (n <=? 57) then Some (n - 48 + 52)
  else if n =? 43 then Some 62
  else if n =? 47 then Some 63
  else None.

Definition is_ascii (c : ascii) : bool := (nat_of_ascii c <? 128)%nat.

Fixpoint all_ascii (s : string) : bool :=
  match s with
  | EmptyString => true
  | String c t => is_ascii c && all_ascii t
  end.

(** The decoding loop of [binascii.a2b_base64]: [quad_pos] is the
    position in the current group of four characters, [leftchar] the
    bits carried over, [pads] the number of [=] seen in a row, [out] the
    bytes produced so far (most recent first). *)
Fixpoint a2b_loop (s : string) (quad_pos : Z) (leftchar : Z) (pads : Z)
         (out : list Z) : outcome (list Z) :=
  match s with
  | EmptyString =>
      if quad_pos =? 0 then Return (rev out)
      else if quad_pos =? 1
      then Raise (mkExn BinasciiError
             "Invalid base64-encoded string: number of data characters cannot be 1 more than a multiple of 4")
      else Raise (mkExn BinasciiError "Incorrect padding")
  | String c t =>
      if Ascii.eqb c "=" then
        if 2 <=? quad_pos then
          if 4 <=? quad_pos + (pads + 1) then Return (rev out)
          else a2b_loop t quad_pos leftchar (pads + 1) out
        else a2b_loop t quad_pos leftchar pads out
      else
        match table_a2b c with
        | None => a2b_loop t quad_pos leftchar pads out
        | Some this_ch =>
            if quad_pos =? 0 then a2b_loop t 1 this_ch 0 out
            else if quad_pos =? 1 then
              a2b_loop t 2 (Z.land this_ch 15) 0
                (Z.land (Z.lor (Z.shiftl leftchar 2) (Z.shiftr this_ch 4)) 255
                 :: out)
            else if quad_pos =? 2 then
              a2b_loop t 3 (Z.land this_ch 3) 0
                (Z.land (Z.lor (Z.shiftl leftchar 4) (Z.shiftr this_ch 2)) 255
                 :: out)
            else
              a2b_loop t 0 0 0
                (Z.land (Z.lor (Z.shiftl leftchar 6) this_ch) 255 :: out)
        end
  end.

Definition b64decode (s : string) : outcome (list Z) :=
  if all_ascii s then a2b_loop s 0 0 0 []
  else Raise (mkExn ValueError
                "string argument should contain only ASCII characters").

End Base64.

(* ================================================================== *)
(** * Images, corners and the external numerical interface *)

(** A pixel array as OpenCV hands it out: two dimensional (grayscale) or
    three dimensional (colour), [shape = (height, width[, channels])]. *)
Record Image := mkImage {
  height : Z;
  width : Z;
  channels : option Z;
  pixels : list Z
}.

(** [len(image.shape)] *)
Definition shape_len (im : Image) : Z :=
  match channels im with Some _ => 3 | None => 2 end.

Definition Corners := list (F32.t * F32.t).
Definition ObjectPoints := list (list F32.t).
Definition Matrix := list (list F64.t).
Definition Vector := list F64.t.

Record TermCriteria := mkCriteria {
  crit_type : Z; crit_max_iter : Z; crit_eps : F64.t
}.

(** Constants of the [cv2] module. *)
Module cv2.
Definition IMREAD_COLOR : Z := 1.
Definition COLOR_BGR2RGB : Z := 4.
Definition COLOR_RGB2GRAY : Z := 7.
Definition CALIB_CB_ADAPTIVE_THRESH : Z := 1.
Definition CALIB_CB_NORMALIZE_IMAGE : Z := 2.
Definition TERM_CRITERIA_MAX_ITER : Z := 1.
Definition TERM_CRITERIA_EPS : Z := 2.
Definition CALIB_RATIONAL_MODEL : Z := 16384.
Definition NORM_L2 : Z := 4.
End cv2.

(** The OpenCV (and Viam image) entry points the repository calls.  Their
    numerical content is outside the repository: each is an arbitrary
    function of its arguments that may raise. *)
Class Extern := {
  imdecode : list Z -> Z -> outcome (option Image);
  cvtColor : Image -> Z -> outcome Image;
  findChessboardCorners : Image -> list Z -> Z -> outcome (bool * Corners);
  cornerSubPix :
    Image -> Corners -> Z * Z -> Z * Z -> TermCriteria -> outcome Corners;
  calibrateCamera :
    list ObjectPoints -> list Corners -> option (Z * Z) ->
    list (list F32.t) -> list F32.t -> Z ->
    outcome (F64.t * Matrix * Vector * list Vector * list Vector);
  projectPoints :
    ObjectPoints -> Vector -> Vector -> Matrix -> Vector ->
    outcome (Corners * Matrix);
  norm : Corners -> Corners -> Z -> outcome F64.t;
  solvePnP :
    ObjectPoints -> Corners -> list (list F32.t) -> list F32.t ->
    outcome (bool * Vector * Vector);
  Rodrigues : Vector -> outcome (Matrix * Matrix);
  viam_to_pil_image : list Z -> outcome Image;
  (** [utils.utils.call_go_mat2ov], a helper of the repository that the
      pose tracker imports; its result is [(ox, oy, oz, theta)] *)
  call_go_mat2ov : Matrix -> outcome (F64.t * F64.t * F64.t * F64.t)
}.

(* ================================================================== *)
(** * [chessboard_utils.detect_chessboard_corners] *)

Definition corner_criteria : TermCriteria :=
  mkCriteria (cv2.TERM_CRITERIA_EPS + cv2.TERM_CRITERIA_MAX_ITER) 30
             (decimal 1 3).

Definition detect_chessboard_corners `{Extern} (image : Image)
           (pattern_size : list Z) : outcome (option Corners) :=
  gray <- (if shape_len image =? 3
           then cvtColor image cv2.COLOR_RGB2GRAY
           else Return image) ;;
  '(found, corners) <-
     findChessboardCorners gray pattern_size
       (cv2.CALIB_CB_ADAPTIVE_THRESH + cv2.CALIB_CB_NORMALIZE_IMAGE) ;;
  if negb found then Return None
  else
    corners <- cornerSubPix gray corners (11, 11) (-1, -1) corner_criteria ;;
    Return (Some corners).

(* ================================================================== *)
(** * [chessboard_utils.decode_base64_image] *)

(** [s.split(',', 1)[1]] when [',' in s] *)
Fixpoint after_comma (s : string) : option string :=
  match s with
  | EmptyString => None
  | String c t => if Ascii.eqb c "," then Some t else after_comma t
  end.

Definition strip_data_uri (s : string) : string :=
  match after_comma s with
  | Some t => t
  | None => s
  end.

(** The decoder on a [str] argument. *)
Definition decode_base64_str `{Extern} (base64_str : string)
  : outcome (option Image) :=
  let base64_str := strip_data_uri base64_str in
  img_bytes <- Base64.b64decode base64_str ;;
  let nparr := img_bytes in
  image <- imdecode nparr cv2.IMREAD_COLOR ;;
  match image with
  | Some im =>
      if shape_len im =? 3
      then im' <- cvtColor im cv2.COLOR_BGR2RGB ;; Return (Some im')
      else Return (Some im)
  | None => Return None
  end.

Definition value_eqb_comma (v : value) : bool :=
  match v with
  | VStr s => String.eqb s ","
  | _ => false
  end.

(** The decoder on whatever a command's image list holds: a value that is
    not a [str] fails in [',' in x], in [x.split] or in [b64decode]. *)
Definition decode_base64_image `{Extern} (x : value) : outcome (option Image) :=
  match x with
  | VStr s => decode_base64_str s
  | VList l =>
      if existsb value_eqb_comma l
      then Raise (mkExn AttributeError "'list' object has no attribute 'split'")
      else Raise (mkExn TypeError "argument should be a bytes-like object or ASCII string")
  | VDict d =>
      if existsb (String.eqb ",") (dict_keys d)
      then Raise (mkExn AttributeError "'dict' object has no attribute 'split'")
      else Raise (mkExn TypeError "argument should be a bytes-like object or ASCII string")
  | _ => Raise (mkExn TypeError "argument is not iterable")
  end.

(* ================================================================== *)
(** * Effects: local variables, the log and the solver calls

    A method body runs on a pair of its local variables [L] and the trace
    of events it has produced so far.  An exception leaves both as they
    are at the point where it is raised, as in Python. *)

Inductive log_level := DEBUG | INFO | WARNING | ERROR.

Inductive log_msg :=
| MsgStartCalibration (num_images : nat)
| MsgDecodeFailed (image_no : nat)
| MsgPatternNotFound (image_no : nat)
| MsgProcessed (successful : nat) (num_images : nat) (image_no : nat)
| MsgImageError (image_no : nat) (e : exn)
| MsgRunningCalibration
| MsgCalibrationComplete (rms : F64.t)
| MsgMeanReprojection (err : F64.t)
| MsgCalibrationFailed (e : exn)
| MsgUnknownCommand (keys : list string)
| MsgText (s : string).

Inductive event :=
| Log (lvl : log_level) (msg : log_msg)
| Stdout (s : string)
| CallCalibrateCamera
    (object_points : list ObjectPoints) (image_points : list Corners)
    (image_size : option (Z * Z))
| CallSolvePnP
    (objp : ObjectPoints) (corners : Corners)
    (K : list (list F32.t)) (dist : list F32.t).

Definition trace := list event.

Definition M (L A : Type) : Type := L * trace -> outcome A * (L * trace).

Definition ret {L A} (a : A) : M L A := fun s => (Return a, s).

Definition bind {L A B} (m : M L A) (f : A -> M L B) : M L B :=
  fun s =>
    match m s with
    | (Return a, s') => f a s'
    | (Raise e, s') => (Raise e, s')
    end.

Definition raise {L A} (e : exn) : M L A := fun s => (Raise e, s).

(** A pure computation that may raise. *)
Definition lift {L A} (o : outcome A) : M L A := fun s => (o, s).

(** [try: m  except Exception as e: h e] *)
Definition try_except {L A} (m : M L A) (h : exn -> M L A) : M L A :=
  fun s =>
    match m s with
    | (Return a, s') => (Return a, s')
    | (Raise e, s') => h e s'
    end.

Definition get_locals {L} : M L L := fun s => (Return (fst s), s).
Definition set_locals {L} (f : L -> L) : M L unit :=
  fun s => (Return tt, (f (fst s), snd s)).
Definition emit {L} (e : event) : M L unit :=
  fun s => (Return tt, (fst s, snd s ++ [e])).
Definition logger {L} (lvl : log_level) (msg : log_msg) : M L unit :=
  emit (Log lvl msg).

(** Calling a method with fresh locals [l0]; the trace is shared. *)
Definition call {L L' A} (l0 : L') (m : M L' A) : M L A :=
  fun s =>
    let '(r, (_, t')) := m (l0, snd s) in (r, (fst s, t')).

Notation "x <~ m ;; k" := (bind m (fun x => k))
  (at level 61, m at next level, right associativity) : py_scope.
Notation "' pat <~ m ;; k" := (bind m (fun x => match x with pat => k end))
  (at level 61, pat pattern, m at next level, right associativity) : py_scope.
Notation "m ;;; k" := (bind m (fun _ => k))
  (at level 61, right associativity) : py_scope.

(** [for x in xs: body x], with [enumerate] when the body takes an index. *)
Fixpoint for_each {L A} (body : nat -> A -> M L unit) (idx : nat) (xs : list A)
  : M L unit :=
  match xs with
  | [] => ret tt
  | x :: xs' => body idx x ;;; for_each body (S idx) xs'
  end.

(* ================================================================== *)
(** * [camera_calibration.CameraCalibration] *)

(** The attributes kept by [reconfigure]. *)
Record CameraCalibration := mkCalibration {
  cc_pattern_size : list Z;     (* [int(x) for x in pattern_list] *)
  cc_square_size : F64.t
}.

(** The local variables of [_calibrate_camera_from_images] that the loop
    updates. *)
Record calib_locals := mkLocals {
  object_points : list ObjectPoints;
  image_points : list Corners;
  image_size : option (Z * Z);
  successful_detections : nat
}.

Definition calib_init : calib_locals := mkLocals [] [] None 0.

Definition insufficient_msg (found num_images : nat) : string :=
  ("Only found chessboard pattern in " ++ str_of_nat found ++ "/"
   ++ str_of_nat num_images
   ++ " images. Need at least 3 valid images for calibration.")%string.

(* ================================================================== *)
(** * [repr] of a [str] and of a list of [str]

    A string of the model is a [str] whose code points are below 256. *)

Definition backslash : ascii := ascii_of_nat 92.
Definition single_quote : ascii := ascii_of_nat 39.
Definition double_quote : ascii := ascii_of_nat 34.

Fixpoint contains (c : ascii) (s : string) : bool :=
  match s with
  | EmptyString => false
  | String c' t => Ascii.eqb c c' || contains c t
  end.

(** The digit of a value below 16 in lower case hexadecimal. *)
Definition hexdigit (n : nat) : ascii :=
  if (n <? 10)%nat then ascii_of_nat (48 + n) else ascii_of_nat (87 + n).

(** [str.isprintable] on one code point below 256: the controls, the no
    break space and the soft hyphen are not printable. *)
Definition isprintable (c : ascii) : bool :=
  let n := nat_of_ascii c in
  ((32 <=? n) && (n <=? 126) || (161 <=? n) && negb (n =? 173))%nat.

(** One character inside the quotes. *)
Definition repr_char (quote c : ascii) : string :=
  let n := nat_of_ascii c in
  if Ascii.eqb c quote || Ascii.eqb c backslash
  then String backslash (String c EmptyString)
  else if (n =? 9)%nat then String backslash "t"
  else if (n =? 10)%nat then String backslash "n"
  else if (n =? 13)%nat then String backslash "r"
  else if isprintable c then String c EmptyString
  else String backslash
         (String "x"
            (String (hexdigit (n / 16))
               (String (hexdigit (n mod 16)) EmptyString))).

(** [repr(s)]: single quotes, unless the string holds a single quote and
    no double quote. *)
Definition repr_str (s : string) : string :=
  let quote :=
    if contains single_quote s && negb (contains double_quote s)
    then double_quote else single_quote in
  String quote
         (String.concat EmptyString
                        (map (repr_char quote) (list_ascii_of_string s))
          ++ String quote EmptyString)%string.

(** [repr] of a list of [str], which is also its [str] and what an
    f-string prints. *)
Definition repr_keys (keys : list string) : string :=
  ("[" ++ String.concat ", " (map repr_str keys) ++ "]")%string.

(** [m[i, j]] *)
Definition mat_get {A} (m : list (list A)) (i j : nat) : outcome A :=
  row <- py_index m i ;; py_index row j.

Section Calibration.
Context `{Extern}.
Variable self : CameraCalibration.

(** The body of the [for] loop, lines 102 to 133. *)
Definition process_image (num_images : nat) (idx : nat) (base64_img : value)
  : M calib_locals unit :=
  try_except
    (image <~ lift (decode_base64_image base64_img) ;;
     match image with
     | None => logger WARNING (MsgDecodeFailed (idx + 1))
     | Some image =>
         l <~ get_locals ;;
         (match image_size l with
          | None =>
              let size :=
                if shape_len image =? 3
                then (width image, height image)
                else (width image, height image) in
              set_locals (fun l => mkLocals (object_points l) (image_points l)
                                            (Some size)
                                            (successful_detections l))
          | Some _ => ret tt
          end) ;;;
         corners <~ lift (detect_chessboard_corners image
                            (cc_pattern_size self)) ;;
         match corners with
         | None => logger WARNING (MsgPatternNotFound (idx + 1))
         | Some corners =>
             objp <~ lift (generate_object_points (cc_pattern_size self)
                             (cc_square_size self)) ;;
             set_locals (fun l => mkLocals (object_points l ++ [objp])
                                           (image_points l)
                                           (image_size l)
                                           (successful_detections l)) ;;;
             set_locals (fun l => mkLocals (object_points l)
                                           (image_points l ++ [corners])
                                           (image_size l)
                                           (successful_detections l)) ;;;
             set_locals (fun l => mkLocals (object_points l)
                                           (image_points l)
                                           (image_size l)
                                           (successful_detections l + 1)) ;;;
             l <~ get_locals ;;
             logger INFO (MsgProcessed (successful_detections l) num_images
                                       (idx + 1))
         end
     end)
    (fun e => logger WARNING (MsgImageError (idx + 1) e)).

(** The re-projection loop, lines 156 to 160: the running sum after the
    views [i, i+1, ...] of [idxs]. *)
Fixpoint reprojection_loop (obj : list ObjectPoints) (img : list Corners)
         (rvecs tvecs : list Vector) (camera_matrix : Matrix)
         (dist_coeffs : Vector) (idxs : list nat) (mean_error : F64.t)
  : outcome F64.t :=
  match idxs with
  | [] => Return mean_error
  | i :: rest =>
      o <- py_index obj i ;;
      r <- py_index rvecs i ;;
      t <- py_index tvecs i ;;
      '(imgpoints2, _) <- projectPoints o r t camera_matrix dist_coeffs ;;
      c <- py_index img i ;;
      d <- norm c imgpoints2 cv2.NORM_L2 ;;
      error <- py_truediv d (Z.of_nat (length imgpoints2)) ;;
      reprojection_loop obj img rvecs tvecs camera_matrix dist_coeffs rest
                        (F64.add mean_error error)
  end.

(** Lines 167 to 187: the result mapping. *)
Definition format_result (ret_rms reprojection_error : F64.t)
           (l : calib_locals) (camera_matrix : Matrix) (dist_coeffs : Vector)
  : outcome dict :=
  '(w, h) <- match image_size l with
             | Some sz => Return sz
             | None => Raise (mkExn TypeError
                                "'NoneType' object is not subscriptable")
             end ;;
  fx <- mat_get camera_matrix 0 0 ;;
  fy <- mat_get camera_matrix 1 1 ;;
  cx <- mat_get camera_matrix 0 2 ;;
  cy <- mat_get camera_matrix 1 2 ;;
  k1 <- py_index dist_coeffs 0 ;;
  k2 <- py_index dist_coeffs 1 ;;
  p1 <- py_index dist_coeffs 2 ;;
  p2 <- py_index dist_coeffs 3 ;;
  k3 <- py_index dist_coeffs 4 ;;
  Return
    [ ("success", VBool true);
      ("rms_error", VFloat ret_rms);
      ("reprojection_error", VFloat reprojection_error);
      ("num_images", VInt (Z.of_nat (successful_detections l)));
      ("image_size", VDict [("width", VInt w); ("height", VInt h)]);
      ("camera_matrix",
        VDict [("fx", VFloat fx); ("fy", VFloat fy);
               ("cx", VFloat cx); ("cy", VFloat cy)]);
      ("distortion_coefficients",
        VDict [("k1", VFloat k1); ("k2", VFloat k2); ("p1", VFloat p1);
               ("p2", VFloat p2); ("k3", VFloat k3)]) ].

(** Lines 138 to 189: the solver, the score and the result. *)
Definition solve_and_score : M calib_locals dict :=
  logger INFO MsgRunningCalibration ;;;
  let camera_matrix0 := repeat (repeat F32.zero 3) 3 in
  let dist_coeffs0 := repeat F32.zero 5 in
  l <~ get_locals ;;
  emit (CallCalibrateCamera (object_points l) (image_points l)
                            (image_size l)) ;;;
  '(ret_rms, camera_matrix, dist_coeffs, rvecs, tvecs) <~
     lift (calibrateCamera (object_points l) (image_points l) (image_size l)
                           camera_matrix0 dist_coeffs0
                           cv2.CALIB_RATIONAL_MODEL) ;;
  mean_error <~
     lift (reprojection_loop (object_points l) (image_points l) rvecs tvecs
                             camera_matrix dist_coeffs
                             (seq 0 (length (object_points l)))
                             (F64.of_Z 0)) ;;
  reprojection_error <~
     lift (py_truediv mean_error (Z.of_nat (length (object_points l)))) ;;
  logger INFO (MsgCalibrationComplete ret_rms) ;;;
  logger INFO (MsgMeanReprojection reprojection_error) ;;;
  lift (format_result ret_rms reprojection_error l camera_matrix dist_coeffs).

Definition _calibrate_camera_from_images (base64_images : list value)
  : M calib_locals dict :=
  let num_images := length base64_images in
  logger INFO (MsgStartCalibration num_images) ;;;
  for_each (process_image num_images) 0 base64_images ;;;
  l <~ get_locals ;;
  if (successful_detections l <? 3)%nat
  then raise (mkExn PlainException
                (insufficient_msg (successful_detections l) num_images))
  else solve_and_score.

(** [params.get("images")] *)
Definition params_get_images (params : value) : outcome value :=
  match params with
  | VDict d =>
      match dict_get d "images" with
      | Some v => Return v
      | None => Return VNone
      end
  | _ => Raise (mkExn AttributeError "object has no attribute 'get'")
  end.

Definition do_command (command : dict) : M unit dict :=
  match dict_get command "calibrate_camera" with
  | Some params =>
      let params := match params with VNone => VDict [] | _ => params end in
      images <~ lift (params_get_images params) ;;
      match images with
      | VList images =>
          if (length images =? 0)%nat
          then ret [ ("success", VBool false);
                     ("error", VStr "At least one image is required for calibration.") ]
          else
            try_except
              (call calib_init (_calibrate_camera_from_images images))
              (fun e =>
                 logger ERROR (MsgCalibrationFailed e) ;;;
                 ret [ ("success", VBool false);
                       ("error", VStr (exn_msg e)) ])
      | _ =>
          ret [ ("success", VBool false);
                ("error", VStr "Missing required 'images' parameter. Must be a list of base64 encoded image strings.") ]
      end
  | None =>
      logger ERROR (MsgUnknownCommand (dict_keys command)) ;;;
      raise (mkExn NotImplementedError
               ("command not supported: " ++ repr_keys (dict_keys command))%string)
  end.

End Calibration.

(* ================================================================== *)
(** * [chessboard.Chessboard], the pose tracker *)

Inductive CameraMimeType :=
| JPEG | PNG | VIAM_RGBA | VIAM_RAW_DEPTH | OtherMime (s : string).

Definition is_jpeg (m : CameraMimeType) : bool :=
  match m with JPEG => true | _ => false end.

Record NamedImage := mkNamedImage {
  mime_type : CameraMimeType;
  data : option (list Z)          (* [None] when the frame carries no bytes *)
}.

Record IntrinsicParameters := mkIntrinsics {
  focal_x_px : F64.t;
  focal_y_px : F64.t;
  center_x_px : F64.t;
  center_y_px : F64.t
}.

(** The camera dependency: its name and what its two awaited calls answer. *)
Record Camera := mkCamera {
  camera_name : string;
  get_images : outcome (list NamedImage);       (* [cam_images[0]] *)
  get_properties : outcome IntrinsicParameters  (* [.intrinsic_parameters] *)
}.

(** The attributes of the tracker.  [reconfigure] stores [pattern_size] as
    it receives it; the record holds a pattern of ints, the only kind that
    [np.zeros] accepts as a dimension. *)
Record Chessboard := mkChessboard {
  camera : Camera;
  pattern_size : list Z;
  square_size : F64.t
}.

Record Pose := mkPose {
  pose_x : F64.t; pose_y : F64.t; pose_z : F64.t;
  o_x : F64.t; o_y : F64.t; o_z : F64.t; theta : F64.t
}.

Record PoseInFrame := mkPoseInFrame {
  reference_frame : string;
  pose : Pose
}.

(** [R.T] for a two dimensional array. *)
Definition transpose2 (m : Matrix) : Matrix :=
  map (fun j => map (fun row => nth j row F64.zero) m)
      (seq 0 (length (hd [] m))).

(** The distortion coefficients written in [get_camera_intrinsics]. *)
Definition dist_constant : list F32.t :=
  map F32.of_f64
      [ decimal 11473497003316879 17;
        SFopp (decimal 31621694564819336 17);
        decimal 24490756914019585 20;
        SFopp (decimal 2616790879983455 19);
        decimal 2385278344154358 16 ].

(** The float32 camera matrix [K] of given intrinsics. *)
Definition camera_matrix_of (i : IntrinsicParameters) : list (list F32.t) :=
  [ [F32.of_f64 (focal_x_px i); F32.of_Z 0; F32.of_f64 (center_x_px i)];
    [F32.of_Z 0; F32.of_f64 (focal_y_px i); F32.of_f64 (center_y_px i)];
    [F32.of_Z 0; F32.of_Z 0; F32.of_Z 1] ].

(** [tvec.reshape(3, 1) * 1000]: an array of three rows with one entry
    each. *)
Definition millimetres (tvec : Vector) : outcome Matrix :=
  match tvec with
  | [t0; t1; t2] =>
      Return [ [F64.mul t0 (F64.of_Z 1000)];
               [F64.mul t1 (F64.of_Z 1000)];
               [F64.mul t2 (F64.of_Z 1000)] ]
  | _ => Raise (mkExn ValueError "cannot reshape array into shape (3,1)")
  end.

(** What a numeric field of a protobuf message is handed: a Python float
    or a numpy array. *)
Inductive field_value :=
| PyFloat (x : F64.t)
| NdArray (a : Vector).

(** The check protobuf makes on a value for a [double] field: an ndarray
    is refused, whatever its size. *)
Definition double_field (v : field_value) : outcome F64.t :=
  match v with
  | PyFloat x => Return x
  | NdArray _ =>
      Raise (mkExn TypeError
               "has type numpy.ndarray, but expected one of: int, float")
  end.

(** [Pose(x=.., y=.., z=.., o_x=.., o_y=.., o_z=.., theta=..)] *)
Definition Pose_init (x y z ox oy oz th : field_value) : outcome Pose :=
  x <- double_field x ;;
  y <- double_field y ;;
  z <- double_field z ;;
  ox <- double_field ox ;;
  oy <- double_field oy ;;
  oz <- double_field oz ;;
  th <- double_field th ;;
  Return (mkPose x y z ox oy oz th).

Section PoseTracker.
Context `{Extern}.
Variable self : Chessboard.

Definition get_camera_intrinsics {L}
  : M L (list (list F32.t) * list F32.t) :=
  intrinsics <~ lift (get_properties (camera self)) ;;
  let K := camera_matrix_of intrinsics in
  let dist := dist_constant in
  logger DEBUG (MsgText "Camera intrinsics") ;;;
  logger DEBUG (MsgText "Distortion coefficients") ;;;
  ret (K, dist).

(** The local variable [viam_image]: unbound ([None]) until the loop of
    lines 129 to 133 assigns it, then bound to bytes or to [None]. *)
Definition pose_locals := option (option (list Z)).

(** The body of that loop. *)
Definition select_image (cam_images0 : list NamedImage) (idx : nat)
           (image : NamedImage) : M pose_locals unit :=
  if is_jpeg (mime_type image)
  then
    first <~ lift (py_index cam_images0 0) ;;
    set_locals (fun _ => Some (data first)) ;;;
    logger DEBUG (MsgText "Found image from camera")
  else ret tt.

(** Lines 139 to 203: from the frame to the pose. *)
Definition pose_from_image (viam_image : list Z)
  : M pose_locals (option string * option PoseInFrame) :=
  image <~ lift (viam_to_pil_image viam_image) ;;
  image <~ lift (if shape_len image =? 3
                 then cvtColor image cv2.COLOR_RGB2GRAY
                 else Return image) ;;
  '(K, dist) <~ get_camera_intrinsics ;;
  '(found, corners) <~
     lift (findChessboardCorners image (pattern_size self)
             (cv2.CALIB_CB_ADAPTIVE_THRESH
              + cv2.CALIB_CB_NORMALIZE_IMAGE)) ;;
  if negb found then
    let err := "Could not find chessboard pattern in image" in
    logger ERROR (MsgText err) ;;;
    ret (Some err, None)
  else
    logger DEBUG (MsgText "Found chessboard with corners") ;;;
    corners <~ lift (cornerSubPix image corners (11, 11) (-1, -1)
                                  corner_criteria) ;;
    (* lines 164 to 166 repeat the body of generate_object_points *)
    objp <~ lift (generate_object_points (pattern_size self)
                                         (square_size self)) ;;
    emit (CallSolvePnP objp corners K dist) ;;;
    '(success, rvec, tvec) <~ lift (solvePnP objp corners K dist) ;;
    if negb success then
      emit (Stdout "Could not solve PnP for chessboard") ;;;
      ret (None, None)
    else
      logger DEBUG (MsgText "Solved PnP") ;;;
      logger DEBUG (MsgText "Rotation vector") ;;;
      logger DEBUG (MsgText "Translation vector") ;;;
      '(R, _) <~ lift (Rodrigues rvec) ;;
      '(ox, oy, oz, th) <~ lift (call_go_mat2ov (transpose2 R)) ;;
      logger DEBUG (MsgText "Translated rotation matrix to orientation vector") ;;;
      t <~ lift (millimetres tvec) ;;
      t0 <~ lift (py_index t 0) ;;
      t1 <~ lift (py_index t 1) ;;
      t2 <~ lift (py_index t 2) ;;
      pose <~ lift (Pose_init (NdArray t0) (NdArray t1) (NdArray t2)
                              (PyFloat ox) (PyFloat oy) (PyFloat oz)
                              (PyFloat th)) ;;
      let pose_in_frame :=
        mkPoseInFrame (camera_name (camera self)) pose in
      ret (Some "pose", Some pose_in_frame).

Definition get_poses_body
  : M pose_locals (option string * option PoseInFrame) :=
  cam_images0 <~ lift (get_images (camera self)) ;;
  for_each (select_image cam_images0) 0 cam_images0 ;;;
  viam_image <~ get_locals ;;
  match viam_image with
  | None =>
      raise (mkExn UnboundLocalError
               "cannot access local variable 'viam_image'")
  | Some None =>
      let err := "Could not get latest image from camera" in
      logger ERROR (MsgText err) ;;;
      ret (Some err, None)
  | Some (Some viam_image) => pose_from_image viam_image
  end.

Definition get_poses (body_names : list string)
  : M unit (option string * option PoseInFrame) :=
  call None get_poses_body.

End PoseTracker.

(* ================================================================== *)
(** * What the claims speak about *)

Definition is_log (e : event) : bool :=
  match e with Log _ _ => true | _ => false end.

Definition is_solver_call (e : event) : bool :=
  match e with CallCalibrateCamera _ _ _ => true | _ => false end.

(** A count as a binary64 number, rounded to nearest even. *)
Definition binary64_of_nat (n : nat) : spec_float :=
  binary_normalize 53 1024 (Z.of_nat n) 0 false.

(** C1 as the claim words it, for one geometry: [cols * rows] points, each
    with third coordinate zero, the point of row [row] and column [col] at
    flat index [row * cols + col]. *)
Definition row_major_grid (cols rows : Z) (s : F64.t) : Prop :=
  exists objp,
    generate_object_points [cols; rows] s = Return objp /\
    Z.of_nat (length objp) = cols * rows /\
    (forall p, In p objp ->
               exists sign, nth_error p 2 = Some (S754_zero sign)) /\
    (forall row col, 0 <= row < rows -> 0 <= col < cols ->
       exists z,
         nth_error objp (Z.to_nat (row * cols + col))
         = Some [F32.mul (F32.of_Z col) (F32.of_f64 s);
                 F32.mul (F32.of_Z row) (F32.of_f64 s);
                 z]).

(** ... and for every valid geometry: at least two columns, two rows and a
    positive square size. *)
Definition row_major_for_every_valid_geometry : Prop :=
  forall cols rows s,
    2 <= cols -> 2 <= rows -> F64.ltb F64.zero s = true ->
    row_major_grid cols rows s.

(** The Python float [1e40]: beyond the range of float32. *)
Definition huge_square_size : F64.t := F64.of_Z (10 ^ 40).

Fixpoint mapM {A B} (f : A -> outcome B) (l : list A) : outcome (list B) :=
  match l with
  | [] => Return []
  | a :: l' => b <- f a ;; bs <- mapM f l' ;; Return (b :: bs)
  end.

Section CalibrationSpec.
Context `{Extern}.
Variable self : CameraCalibration.

(** The image an input decodes to, when it does. *)
Definition decoded (x : value) : option Image :=
  match decode_base64_image x with
  | Return (Some im) => Some im
  | _ => None
  end.

(** The corners detected in an input, when it decodes and the pattern is
    found in it. *)
Definition detection (x : value) : option Corners :=
  match decoded x with
  | Some im =>
      match detect_chessboard_corners im (cc_pattern_size self) with
      | Return (Some c) => Some c
      | _ => None
      end
  | None => None
  end.

(** The corner sets of the inputs with a successful detection, in input
    order. *)
Fixpoint detections (images : list value) : list Corners :=
  match images with
  | [] => []
  | x :: rest =>
      match detection x with
      | Some c => c :: detections rest
      | None => detections rest
      end
  end.

(** Width and height of the first input that decodes. *)
Fixpoint first_decoded_size (images : list value) : option (Z * Z) :=
  match images with
  | [] => None
  | x :: rest =>
      match decoded x with
      | Some im => Some (width im, height im)
      | None => first_decoded_size rest
      end
  end.

(** Width and height of the first input that decodes and in which the
    pattern is found. *)
Fixpoint first_detected_size (images : list value) : option (Z * Z) :=
  match images with
  | [] => None
  | x :: rest =>
      match decoded x, detection x with
      | Some im, Some _ => Some (width im, height im)
      | _, _ => first_detected_size rest
      end
  end.

(** What one pass of the loop body does to the local variables. *)
Definition step_locals (l : calib_locals) (x : value) : calib_locals :=
  match decoded x with
  | None => l
  | Some im =>
      let size := match image_size l with
                  | None => Some (width im, height im)
                  | Some sz => Some sz
                  end in
      match detection x,
            generate_object_points (cc_pattern_size self)
                                   (cc_square_size self) with
      | Some c, Return objp =>
          mkLocals (object_points l ++ [objp]) (image_points l ++ [c])
                   size (successful_detections l + 1)
      | _, _ =>
          mkLocals (object_points l) (image_points l) size
                   (successful_detections l)
      end
  end.

(** The mean re-projection error in the words of the specification: per
    view, the L2 distance between the re-projected object points and the
    detected corners divided by the number of points; then the average
    over the views.  The arithmetic is IEEE binary64, written with the
    operations of [SpecFloat] themselves. *)
Definition view_error (K : Matrix) (d : Vector)
           (v : ObjectPoints * Corners * Vector * Vector) : outcome F64.t :=
  let '(objp, corners, rvec, tvec) := v in
  '(reprojected, _) <- projectPoints objp rvec tvec K d ;;
  dist <- norm corners reprojected cv2.NORM_L2 ;;
  match length reprojected with
  | O => Raise (mkExn ZeroDivisionError "float division by zero")
  | S _ => Return (SFdiv 53 1024 dist (binary64_of_nat (length reprojected)))
  end.

Definition mean_reprojection_error_spec (K : Matrix) (d : Vector)
           (views : list (ObjectPoints * Corners * Vector * Vector))
  : outcome F64.t :=
  errs <- mapM (view_error K d) views ;;
  match length views with
  | O => Raise (mkExn ZeroDivisionError "float division by zero")
  | S _ =>
      Return (SFdiv 53 1024
                    (fold_left (SFadd 53 1024) errs (S754_zero false))
                    (binary64_of_nat (length views)))
  end.

Definition views_of (obj : list ObjectPoints) (img : list Corners)
           (rvecs tvecs : list Vector)
  : list (ObjectPoints * Corners * Vector * Vector) :=
  combine (combine (combine obj img) rvecs) tvecs.

(** The locals after a loop in which [n] detections were accumulated. *)
Definition accumulated (objp : ObjectPoints) (images : list value)
  : calib_locals :=
  mkLocals (repeat objp (length (detections images)))
           (detections images)
           (first_decoded_size images)
           (length (detections images)).

Definition solver_events (l : calib_locals) (rms err : F64.t) : trace :=
  [ Log INFO MsgRunningCalibration;
    CallCalibrateCamera (object_points l) (image_points l) (image_size l);
    Log INFO (MsgCalibrationComplete rms);
    Log INFO (MsgMeanReprojection err) ].

(** C7 as the claim words it: the reported size is that of the first
    input with a successful detection. *)
Definition size_of_first_detection (images : list value) : Prop :=
  forall tr result s',
    _calibrate_camera_from_images self images (calib_init, tr)
    = (Return result, s') ->
    exists w h,
      first_detected_size images = Some (w, h) /\
      dict_get result "image_size"
      = Some (VDict [("width", VInt w); ("height", VInt h)]).

End CalibrationSpec.

(** A string is malformed base64 when the standard decoder rejects it. *)
Definition malformed_base64 (s : string) : Prop :=
  exists e, Base64.b64decode (strip_data_uri s) = Raise e.

(** C9 as the claim words it: a malformed string yields the decode failure
    value (no image) and no exception. *)
Definition decode_failure_on_malformed `{Extern} (s : string) : Prop :=
  malformed_base64 s -> decode_base64_image (VStr s) = Return None.

(** C5 as the claim words it: a pose keyed ["pose"], or an error message
    with no pose. *)
Definition pose_or_error (r : outcome (option string * option PoseInFrame))
  : Prop :=
  (exists p, r = Return (Some "pose", Some p)) \/
  (exists err, r = Return (Some err, None)).

(** C6 as the claim words it: the query reports a pose. *)
Definition reports_pose (r : outcome (option string * option PoseInFrame))
  : Prop :=
  exists key p, r = Return (key, Some p).

(** C8 as the claim words it, for the commands under ["calibrate_camera"]:
    a mapping with an explicit [success] flag comes back. *)
Definition structured_response (r : outcome dict) : Prop :=
  exists d b, r = Return d /\ dict_get d "success" = Some (VBool b).

(* ================================================================== *)
(** * A small concrete instance of the external interface

    Used to run the embedding on concrete inputs.  A three byte payload
    [a; b; c] stands for an image: [a = 0] is not an image, [a = 1] is
    640 x 480, any other [a] is 1280 x 720; the pattern is visible when
    [b = 1]. *)

Module Toy.

Definition image_of (bytes : list Z) : outcome (option Image) :=
  match bytes with
  | [] => Raise (mkExn Cv2Error "(-215:Assertion failed) !buf.empty()")
  | a :: _ =>
      if a =? 0 then Return None
      else if a =? 1 then Return (Some (mkImage 480 640 (Some 3) bytes))
      else Return (Some (mkImage 720 1280 (Some 3) bytes))
  end.

Definition corners_of (pattern : list Z) : Corners :=
  map (fun i => (F32.of_Z (Z.of_nat i), F32.zero))
      (seq 0 (Z.to_nat (fold_right Z.mul 1 pattern))).

Definition find (im : Image) (pattern : list Z) : outcome (bool * Corners) :=
  match pixels im with
  | [_; b; _] =>
      if b =? 1 then Return (true, corners_of pattern) else Return (false, [])
  | _ => Raise (mkExn Cv2Error "unsupported image")
  end.

Definition f (n : Z) : F64.t := F64.of_Z n.

Definition calibrate (obj : list ObjectPoints)
  : outcome (F64.t * Matrix * Vector * list Vector * list Vector) :=
  Return (decimal 25 2,
          [[f 800; f 0; f 320]; [f 0; f 800; f 240]; [f 0; f 0; f 1]],
          repeat F64.zero 8,
          map (fun _ => [F64.zero; F64.zero; F64.zero]) obj,
          map (fun _ => [F64.zero; F64.zero; f 1]) obj).

Definition project (objp : ObjectPoints) : outcome (Corners * Matrix) :=
  Return (map (fun p => (nth 0 p F32.zero, nth 1 p F32.zero)) objp, []).

Definition mat2ov (m : Matrix) : outcome (F64.t * F64.t * F64.t * F64.t) :=
  match m with
  | [[_; a; b]; [c; _; d]; _] => Return (a, b, d, c)
  | _ => Raise (mkExn ValueError "not a 3 x 3 matrix")
  end.

Definition extern (pnp_converges : bool) : Extern := {|
  imdecode := fun bytes _ => image_of bytes;
  cvtColor := fun im code =>
    if code =? cv2.COLOR_RGB2GRAY
    then Return (mkImage (height im) (width im) None (pixels im))
    else Return im;
  findChessboardCorners := fun im pattern _ => find im pattern;
  cornerSubPix := fun _ corners _ _ _ => Return corners;
  calibrateCamera := fun obj _ _ _ _ _ => calibrate obj;
  projectPoints := fun objp _ _ _ _ => project objp;
  norm := fun a _ _ => Return (F64.of_Z (Z.of_nat (length a)));
  solvePnP := fun _ _ _ _ =>
    if pnp_converges
    then Return (true, [f 1; f 2; f 3], [f 0; f 0; f 2])
    else Return (false, [], []);
  Rodrigues := fun _ =>
    Return ([[f 1; f 2; f 3]; [f 4; f 5; f 6]; [f 7; f 8; f 9]], []);
  viam_to_pil_image := fun bytes =>
    match image_of bytes with
    | Return (Some im) => Return im
    | Return None => Raise (mkExn ValueError "cannot identify image file")
    | Raise e => Raise e
    end;
  call_go_mat2ov := mat2ov
|}.

Definition half : F64.t := S754_finite false 1 (-1).

Definition service : CameraCalibration := mkCalibration [3; 2] half.

(** base64 of the payloads [1;1;1], [2;1;1], [1;0;0] and [0;0;0] *)
Definition small_board : value := VStr "AQEB".
Definition large_board : value := VStr "AgEB".
Definition small_blank : value := VStr "AQAA".
Definition not_an_image : value := VStr "AAAA".
Definition corrupt : value := VStr "abc".

Definition intrinsics : IntrinsicParameters :=
  mkIntrinsics (f 800) (f 810) (f 320) (f 240).

Definition cam (frames : list NamedImage) : Camera :=
  mkCamera "cam-1" (Return frames) (Return intrinsics).

Definition board (frames : list NamedImage) : Chessboard :=
  mkChessboard (cam frames) [3; 2] half.

Definition jpeg_board : NamedImage := mkNamedImage JPEG (Some [1; 1; 1]).
Definition jpeg_blank : NamedImage := mkNamedImage JPEG (Some [1; 0; 0]).
Definition png_board : NamedImage := mkNamedImage PNG (Some [1; 1; 1]).

(** The scenario of the specification: five inputs, four with a visible
    pattern and one corrupt. *)
Definition five_inputs : list value :=
  [large_board; large_board; corrupt; large_board;
   large_board].

(** The first input decodes to 640 x 480 and shows no pattern; the three
    others are 1280 x 720 and show it. *)
Definition blank_then_boards : list value :=
  [small_blank; large_board; large_board; large_board].

Definition objp : ObjectPoints :=
  match generate_object_points [3; 2] half with
  | Return o => o
  | Raise _ => []
  end.

Definition cv : Extern := extern true.
Definition cv_no_pnp : Extern := extern false.

End Toy.


(* ================================================================== *)
(** * Proof automation *)

(** Case analysis on the next call whose answer decides how a run goes on. *)
Ltac next_case H :=
  match type of H with
  | context [match ?x with _ => _ end] =>
      lazymatch x with
      | context [match _ with _ => _ end] => fail
      | _ => first [ is_var x; destruct x | destruct x eqn:? ]
      end
  end.

Ltac run_cases H :=
  repeat (cbn [fst snd app] in H; next_case H).


(* ================================================================== *)
(** * Vocabulary of the further properties *)

(** No [","] occurs in the string. *)
Fixpoint no_comma (s : string) : bool :=
  match s with
  | EmptyString => true
  | String c t => negb (Ascii.eqb c ",") && no_comma t
  end.

(** A character that [base64.b64decode] discards: ASCII, outside the
    base64 alphabet, and not the padding sign. *)
Definition discarded (c : ascii) : bool :=
  Base64.is_ascii c
  && match Base64.table_a2b c with None => true | Some _ => false end
  && negb (Ascii.eqb c "=").

Definition is_str (v : value) : bool :=
  match v with VStr _ => true | _ => false end.

(** A log line of the batch loop for an accepted image, and one for a
    skipped image. *)
Definition is_accept_line (e : event) : bool :=
  match e with
  | Log INFO (MsgProcessed _ _ _) => true
  | _ => false
  end.

Definition is_skip_line (e : event) : bool :=
  match e with
  | Log WARNING (MsgDecodeFailed _)
  | Log WARNING (MsgPatternNotFound _)
  | Log WARNING (MsgImageError _ _) => true
  | _ => false
  end.

(** The request that carries a list of images. *)
Definition calibrate_command (images : list value) : dict :=
  [("calibrate_camera", VDict [("images", VList images)])].

(** What the batch loop keeps true of its locals. *)
Definition paired (self : CameraCalibration) (l : calib_locals) : Prop :=
  length (object_points l) = successful_detections l /\
  length (image_points l) = successful_detections l /\
  forall o, In o (object_points l) ->
            generate_object_points (cc_pattern_size self) (cc_square_size self)
            = Return o.

Definition is_image_line (e : event) : bool :=
  is_accept_line e || is_skip_line e.

(** The frames of a camera answer that are JPEG. *)
Definition jpeg_frames (frames : list NamedImage) : list NamedImage :=
  filter (fun image => is_jpeg (mime_type image)) frames.

Definition found_image_line : event :=
  Log DEBUG (MsgText "Found image from camera").

(* ================================================================== *)
(** * Configuration: [validate_config] and [reconfigure]

    [struct_to_dict(config.attributes)] is the mapping [attrs]; in it
    every number is a float. *)

(** Exceptions of the conversions below, [OverflowError] among them. *)
Inductive py_error :=
| StdError (e : exn)
| OverflowError (msg : string).

Inductive py_result (A : Type) :=
| PyReturn (a : A)
| PyRaise (e : py_error).
Arguments PyReturn {A} a.
Arguments PyRaise {A} e.

(** [attrs.get(key)] *)
Definition attrs_get (attrs : dict) (key : string) : value :=
  match dict_get attrs key with
  | Some v => v
  | None => VNone
  end.

Definition is_none (v : value) : bool :=
  match v with VNone => true | _ => false end.

Definition missing_attribute (key : string) : exn :=
  mkExn PlainException ("Missing required " ++ key ++ " attribute.")%string.

(** [int(f)] for a float: truncation toward zero. *)
Definition int_of_float (f : F64.t) : py_result Z :=
  match f with
  | S754_zero _ => PyReturn 0
  | S754_finite s m e =>
      let magnitude :=
        if 0 <=? e then Z.pos m * 2 ^ e else Z.pos m / 2 ^ (- e) in
      PyReturn (if s then - magnitude else magnitude)
  | S754_infinity _ =>
      PyRaise (OverflowError "cannot convert float infinity to integer")
  | S754_nan =>
      PyRaise (StdError (mkExn ValueError
                           "cannot convert float NaN to integer"))
  end.

Definition not_iterable : py_error :=
  StdError (mkExn TypeError "object is not iterable").

Definition not_a_number : py_error :=
  StdError (mkExn TypeError
              "int() argument must be a string, a bytes-like object or a real number").

Module CameraCalibrationConfig.

Definition PATTERN_ATTR : string := "pattern_size".
Definition SQUARE_ATTR : string := "square_size_mm".

Definition validate_config (attrs : dict)
: outcome (list string * list string) :=
if is_none (attrs_get attrs PATTERN_ATTR)
then Raise (missing_attribute PATTERN_ATTR)
else if is_none (attrs_get attrs SQUARE_ATTR)
then Raise (missing_attribute SQUARE_ATTR)
else Return ([], []).

(** The attributes [reconfigure] keeps on the service. *)
Record attributes := mkAttributes {
attr_pattern_size : list Z;
attr_square_size : value
}.

Section Reconfigure.
(** [int(s)] for a string, and the outcome of the framework's
  [super().reconfigure], are not the repository's. *)
Variable int_of_str : string -> py_result Z.
Variable super_reconfigure : py_result unit.

(** [int(x)] *)
Definition py_int (x : value) : py_result Z :=
match x with
| VInt n => PyReturn n
| VBool b => PyReturn (if b then 1 else 0)
| VFloat f => int_of_float f
| VStr s => int_of_str s
| VNone | VList _ | VDict _ => PyRaise not_a_number
end.

(** The values [for x in v] goes through. *)
Definition py_iter (v : value) : py_result (list value) :=
match v with
| VList l => PyReturn l
| VStr s =>
    PyReturn (map (fun c => VStr (String c EmptyString))
                  (list_ascii_of_string s))
| VDict d => PyReturn (map VStr (dict_keys d))
| VNone | VBool _ | VInt _ | VFloat _ => PyRaise not_iterable
end.

(** [[int(x) for x in xs]] *)
Fixpoint ints (xs : list value) : py_result (list Z) :=
match xs with
| [] => PyReturn []
| x :: rest =>
    match py_int x with
    | PyRaise e => PyRaise e
    | PyReturn n =>
        match ints rest with
        | PyRaise e => PyRaise e
        | PyReturn ns => PyReturn (n :: ns)
        end
    end
end.

(** The outcome of the call and the attributes of the service after it. *)
Definition reconfigure (self : attributes) (attrs : dict)
: py_result unit * attributes :=
let pattern_list := attrs_get attrs PATTERN_ATTR in
match py_iter pattern_list with
| PyRaise e => (PyRaise e, self)
| PyReturn xs =>
    match ints xs with
    | PyRaise e => (PyRaise e, self)
    | PyReturn pattern =>
        let self := mkAttributes pattern (attr_square_size self) in
        let self := mkAttributes (attr_pattern_size self)
                                 (attrs_get attrs SQUARE_ATTR) in
        (super_reconfigure, self)
    end
end.

End Reconfigure.

(** The service of the batch calibration, when the square size is a
  float. *)
Definition service_of (a : attributes) : option CameraCalibration :=
match attr_square_size a with
| VFloat f => Some (mkCalibration (attr_pattern_size a) f)
| _ => None
end.

End CameraCalibrationConfig.

Module ChessboardConfig.

Definition cam_attr : string := "camera_name".
Definition pattern_attr : string := "pattern_size".
Definition square_attr : string := "square_size_mm".

Section Validate.
(** [str(v)] of a value that is not a string is not modelled. *)
Variable py_repr : value -> string.

Definition py_str (v : value) : string :=
match v with
| VStr s => s
| _ => py_repr v
end.

Definition validate_config (attrs : dict)
: outcome (list string * list string) :=
let cam := attrs_get attrs cam_attr in
if is_none cam then Raise (missing_attribute cam_attr)
else if is_none (attrs_get attrs pattern_attr)
then Raise (missing_attribute pattern_attr)
else if is_none (attrs_get attrs square_attr)
then Raise (missing_attribute square_attr)
else Return ([py_str cam], []).

End Validate.

End ChessboardConfig.

(** Both required attributes of the calibration service are present. *)
Definition calibration_attributes_present (attrs : dict) : bool :=
  negb (is_none (attrs_get attrs "pattern_size"))
  && negb (is_none (attrs_get attrs "square_size_mm")).

(** The finite floats. *)
Definition finite_float (v : value) : bool :=
  match v with
  | VFloat (S754_zero _) | VFloat (S754_finite _ _ _) => true
  | _ => false
  end.

(** A value that [for x in v] cannot go through. *)
Definition is_scalar (v : value) : bool :=
  match v with
  | VBool _ | VInt _ | VFloat _ => true
  | _ => false
  end.

(* ================================================================== *)
(** * Concrete data for the further properties *)

(** The concrete interface of [Toy], with a solver that refuses its
    input. *)
Definition solver_refuses : Extern := {|
  imdecode := @imdecode Toy.cv;
  cvtColor := @cvtColor Toy.cv;
  findChessboardCorners := @findChessboardCorners Toy.cv;
  cornerSubPix := @cornerSubPix Toy.cv;
  calibrateCamera := fun _ _ _ _ _ _ =>
    Raise (mkExn Cv2Error "(-215:Assertion failed) nimages > 0");
  projectPoints := @projectPoints Toy.cv;
  norm := @norm Toy.cv;
  solvePnP := @solvePnP Toy.cv;
  Rodrigues := @Rodrigues Toy.cv;
  viam_to_pil_image := @viam_to_pil_image Toy.cv;
  call_go_mat2ov := @call_go_mat2ov Toy.cv
|}.

(** A configuration as [struct_to_dict] delivers it: numbers are floats. *)
Definition board_attributes : dict :=
  [("camera_name", VStr "cam-1");
   ("pattern_size", VList [VFloat (F64.of_Z 9); VFloat (F64.of_Z 6)]);
   ("square_size_mm", VFloat (F64.of_Z 25))].

(** The same with a number where the pattern list belongs. *)
Definition scalar_pattern_attributes : dict :=
  [("pattern_size", VFloat (F64.of_Z 9));
   ("square_size_mm", VFloat (F64.of_Z 25))].

Definition unconfigured : CameraCalibrationConfig.attributes :=
  CameraCalibrationConfig.mkAttributes [] VNone.

(** [int] of a string is not needed on these configurations. *)
Definition no_int_of_str (s : string) : py_result Z :=
  PyRaise (StdError (mkExn ValueError "invalid literal for int()")).

(** What the batch calibration answers on [Toy.five_inputs]: four of the
    five inputs are detected, each view has six points and a norm of 6,
    so that the mean re-projection error is (6/6 + 6/6 + 6/6 + 6/6) / 4. *)
Definition five_inputs_result : dict :=
  [ ("success", VBool true);
    ("rms_error", VFloat (decimal 25 2));
    ("reprojection_error", VFloat (F64.of_Z 1));
    ("num_images", VInt 4);
    ("image_size", VDict [("width", VInt 1280); ("height", VInt 720)]);
    ("camera_matrix",
      VDict [("fx", VFloat (Toy.f 800)); ("fy", VFloat (Toy.f 800));
             ("cx", VFloat (Toy.f 320)); ("cy", VFloat (Toy.f 240))]);
    ("distortion_coefficients",
      VDict [("k1", VFloat F64.zero); ("k2", VFloat F64.zero);
             ("p1", VFloat F64.zero); ("p2", VFloat F64.zero);
             ("k3", VFloat F64.zero)]) ].

(** A command whose only key holds an apostrophe. *)
Definition apostrophe_command : dict := [("it's", VNone)].

(** [command not supported: ["it's"]] *)
Definition apostrophe_message : string :=
  ("command not supported: ["
   ++ String double_quote ("it's" ++ String double_quote "]"))%string.
(* ================================================================== *)
(** * Object points: proofs *)

Section ObjectPointProofs.

Lemma pairs_segment (f g : nat -> Z) (l : list nat) (rest : list Z) :
  Np.pairs (flat_map (fun i => [f i; g i]) l ++ rest)
  = map (fun i => [f i; g i]) l ++ Np.pairs rest.
Proof.
  induction l as [|i l IH]; simpl; [reflexivity|].
  now rewrite IH.
Qed.

Lemma pairs_grid (f g : nat -> nat -> Z) (l1 l2 : list nat) :
  Np.pairs (flat_map (fun j => flat_map (fun i => [f i j; g i j]) l1) l2)
  = flat_map (fun j => map (fun i => [f i j; g i j]) l1) l2.
Proof.
  induction l2 as [|j l2 IH]; simpl; [reflexivity|].
  now rewrite pairs_segment, IH.
Qed.

Lemma even_segment (f g : nat -> Z) (l : list nat) (rest : list Z) :
  Nat.even (length (flat_map (fun i => [f i; g i]) l ++ rest))
  = Nat.even (length rest).
Proof.
  induction l as [|i l IH]; simpl; [reflexivity|exact IH].
Qed.

Lemma even_grid (f g : nat -> nat -> Z) (l1 l2 : list nat) :
  Nat.even
    (length (flat_map (fun j => flat_map (fun i => [f i j; g i j]) l1) l2))
  = true.
Proof.
  induction l2 as [|j l2 IH]; simpl; [reflexivity|].
  now rewrite even_segment.
Qed.

Lemma mgrid_returns (p0 p1 : Z) :
  0 <= p0 -> 0 <= p1 ->
  Np.mgrid p0 p1 = Return (Np.indices (Z.to_nat p0) (Z.to_nat p1)).
Proof.
  intros H0 H1. unfold Np.mgrid.
  destruct (Z.ltb_spec p0 0); [lia|].
  destruct (Z.ltb_spec p1 0); [lia|reflexivity].
Qed.

Lemma mgrid_raises (p0 p1 : Z) :
  p0 < 0 \/ p1 < 0 ->
  Np.mgrid p0 p1
  = Raise (mkExn ValueError "negative dimensions are not allowed").
Proof.
  intros Hneg. unfold Np.mgrid.
  destruct (Z.ltb_spec p0 0); [reflexivity|].
  destruct (Z.ltb_spec p1 0); [reflexivity|lia].
Qed.

Lemma reshape_transpose_mgrid (a b : nat) :
  Np.reshape_m1_2 (Np.transpose (Np.indices a b))
  = Return (index_grid a b).
Proof.
  unfold Np.reshape_m1_2, Np.ravel, Np.transpose, Np.indices, index_grid.
  cbn [Np.dim0 Np.dim1 Np.dim2 Np.get3 seq map Nat.eqb].
  rewrite (even_grid (fun i _ => Z.of_nat i) (fun _ j => Z.of_nat j)).
  now rewrite (pairs_grid (fun i _ => Z.of_nat i) (fun _ j => Z.of_nat j)).
Qed.

Lemma segments_length {A} (h : nat -> nat -> A) (a : nat) (l : list nat) :
  length (flat_map (fun j => map (h j) (seq 0 a)) l) = (length l * a)%nat.
Proof.
  induction l as [|j l IH]; simpl; [reflexivity|].
  now rewrite length_app, length_map, length_seq, IH.
Qed.

Lemma segments_nth {A} (h : nat -> nat -> A) (a b s r c : nat) :
  (r < b)%nat -> (c < a)%nat ->
  nth_error (flat_map (fun j => map (h j) (seq 0 a)) (seq s b)) (r * a + c)
  = Some (h (s + r)%nat c).
Proof.
  revert s r; induction b as [|b IH]; intros s r Hr Hc; [lia|].
  simpl seq; simpl flat_map. destruct r as [|r].
  - rewrite nth_error_app1 by (rewrite length_map, length_seq; simpl; lia).
    simpl. rewrite nth_error_map, nth_error_seq.
    destruct (Nat.ltb_spec c a); [|lia]. simpl. now rewrite Nat.add_0_r.
  - rewrite nth_error_app2 by (rewrite length_map, length_seq; simpl; lia).
    rewrite length_map, length_seq.
    replace (S r * a + c - a)%nat with (r * a + c)%nat by (simpl; lia).
    rewrite IH by lia. f_equal. f_equal. lia.
Qed.

Lemma assign_cols2_zeros (grid : list (list Z)) (n : nat) :
  length grid = n ->
  Np.assign_cols2 (repeat (repeat F32.zero 3) n) grid
  = Return (map (fun s => map F32.of_Z s ++ [F32.zero]) grid).
Proof.
  intros Hn. unfold Np.assign_cols2.
  rewrite repeat_length, Hn, Nat.eqb_refl. f_equal.
  subst n. set (z3 := repeat F32.zero 3).
  induction grid as [|g grid IH]; [reflexivity|].
  cbn [length repeat combine map fst snd]. now rewrite IH.
Qed.

Lemma generate_object_points_eq (cols rows : Z) (s : F64.t) :
  0 <= cols -> 0 <= rows ->
  generate_object_points [cols; rows] s
  = Return (map (fun g => map (fun x => F32.mul x (F32.of_f64 s))
                              (map F32.of_Z g ++ [F32.zero]))
                (index_grid (Z.to_nat cols) (Z.to_nat rows))).
Proof.
  intros Hc Hr. unfold generate_object_points. cbn [py_index nth_error obind].
  unfold Np.zeros. destruct (Z.ltb_spec (rows * cols) 0) as [H|_]; [nia|].
  cbn [obind]. rewrite mgrid_returns by assumption. cbn [obind].
  rewrite reshape_transpose_mgrid. cbn [obind].
  rewrite assign_cols2_zeros.
  - cbn [obind]. unfold Np.imul. now rewrite map_map.
  - unfold index_grid. rewrite segments_length, length_seq. nia.
Qed.

(** A positive zero stays a positive zero when scaled by the float32
    cast of a positive square size that does not overflow. *)
Lemma scale_zero (s : F64.t) :
  F64.ltb F64.zero s = true ->
  F32.is_finite (F32.of_f64 s) = true ->
  F32.mul F32.zero (F32.of_f64 s) = F32.zero.
Proof.
  destruct s as [b|b| |b m e]; try destruct b; try discriminate.
  unfold F32.of_f64, binary_round, binary_round_aux.
  destruct (shl_align _ _ _) as [mz ez].
  destruct (shr_fexp _ _ _ _ _) as [mrs e1].
  destruct (shr_fexp _ _ _ _ _) as [mrs' e2].
  destruct (shr_m mrs'); try discriminate; try reflexivity.
  destruct (Z.leb _ _); try discriminate; reflexivity.
Qed.

End ObjectPointProofs.

(** C1, amended. For a valid pattern geometry (at least two columns and
    two rows, a positive square size whose float32 value is finite),
    [generate_object_points] returns [cols * rows] points, each of them has
    third coordinate (positive) zero, and the point at flat index
    [row * cols + col] is [(col * square_size, row * square_size, 0)] in
    float32 arithmetic: the grid is flattened row by row. *)
Theorem generate_object_points_row_major (cols rows : Z) (s : F64.t) :
  2 <= cols -> 2 <= rows ->
  F64.ltb F64.zero s = true ->
  F32.is_finite (F32.of_f64 s) = true ->
  exists objp,
    generate_object_points [cols; rows] s = Return objp /\
    Z.of_nat (length objp) = cols * rows /\
    (forall p, In p objp -> length p = 3%nat /\ nth_error p 2 = Some F32.zero) /\
    (forall row col, 0 <= row < rows -> 0 <= col < cols ->
       nth_error objp (Z.to_nat (row * cols + col))
       = Some [F32.mul (F32.of_Z col) (F32.of_f64 s);
               F32.mul (F32.of_Z row) (F32.of_f64 s);
               F32.zero]).
Proof.
  intros Hc Hr Hpos Hfin. eexists. split.
  { apply generate_object_points_eq; lia. }
  pose proof (scale_zero s Hpos Hfin) as Hz.
  split; [|split].
  - rewrite length_map. unfold index_grid.
    rewrite segments_length, length_seq. nia.
  - intros p Hp. apply in_map_iff in Hp. destruct Hp as [g [<- Hg]].
    unfold index_grid in Hg. apply in_flat_map in Hg.
    destruct Hg as [j [_ Hg]]. apply in_map_iff in Hg.
    destruct Hg as [i [<- _]]. cbn [map app length nth_error].
    now rewrite Hz.
  - intros row col Hrow Hcol.
    replace (Z.to_nat (row * cols + col))
      with (Z.to_nat row * Z.to_nat cols + Z.to_nat col)%nat by nia.
    rewrite nth_error_map. unfold index_grid.
    rewrite segments_nth by lia. cbn [option_map map app Nat.add].
    rewrite !Z2Nat.id by lia. now rewrite Hz.
Qed.

Lemma generate_object_points_row_major_witness :
  exists objp,
    generate_object_points [3; 2] Toy.half = Return objp /\
    Z.of_nat (length objp) = 3 * 2 /\
    (forall p, In p objp -> length p = 3%nat /\ nth_error p 2 = Some F32.zero) /\
    (forall row col, 0 <= row < 2 -> 0 <= col < 3 ->
       nth_error objp (Z.to_nat (row * 3 + col))
       = Some [F32.mul (F32.of_Z col) (F32.of_f64 Toy.half);
               F32.mul (F32.of_Z row) (F32.of_f64 Toy.half);
               F32.zero]).
Proof.
  apply (generate_object_points_row_major 3 2 Toy.half);
    [lia | lia | reflexivity | reflexivity].
Defined.

(** C1, as stated, fails: the square size [1e40] is positive but beyond
    the range of float32, the array is multiplied by infinity, and every
    third coordinate is then 0 * inf, not a number. *)
Lemma overflowing_square_size_gives_nan :
  F64.ltb F64.zero huge_square_size = true /\
  F32.of_f64 huge_square_size = S754_infinity false /\
  generate_object_points [2; 2] huge_square_size
  = Return [ [S754_nan; S754_nan; S754_nan];
             [S754_infinity false; S754_nan; S754_nan];
             [S754_nan; S754_infinity false; S754_nan];
             [S754_infinity false; S754_infinity false; S754_nan] ] /\
  (row_major_for_every_valid_geometry -> False).
Proof.
  assert (Hpos : F64.ltb F64.zero huge_square_size = true)
    by (vm_compute; reflexivity).
  assert (Hrun : generate_object_points [2; 2] huge_square_size
                 = Return [ [S754_nan; S754_nan; S754_nan];
                            [S754_infinity false; S754_nan; S754_nan];
                            [S754_nan; S754_infinity false; S754_nan];
                            [S754_infinity false; S754_infinity false;
                             S754_nan] ])
    by (vm_compute; reflexivity).
  split; [exact Hpos|]. split; [vm_compute; reflexivity|].
  split; [exact Hrun|].
  intros Hclaim.
  destruct (Hclaim 2 2 huge_square_size ltac:(lia) ltac:(lia) Hpos)
    as (objp & Hgen & _ & Hzero & _).
  rewrite Hrun in Hgen. injection Hgen as <-.
  destruct (Hzero [S754_nan; S754_nan; S754_nan] (or_introl eq_refl))
    as [sign Hsign].
  discriminate Hsign.
Qed.

(* ================================================================== *)
(** * Running a sequence of effects *)

Lemma bind_return {L A B} (m : M L A) (f : A -> M L B) s a s' :
  m s = (Return a, s') -> bind m f s = f a s'.
Proof. unfold bind. now intros ->. Qed.

Lemma bind_raise {L A B} (m : M L A) (f : A -> M L B) s e s' :
  m s = (Raise e, s') -> bind m f s = (Raise e, s').
Proof. unfold bind. now intros ->. Qed.

Lemma logger_run {L} (lvl : log_level) (msg : log_msg) (l : L) (tr : trace) :
  logger lvl msg (l, tr) = (Return tt, (l, tr ++ [Log lvl msg])).
Proof. reflexivity. Qed.

Lemma get_locals_run {L} (l : L) (tr : trace) :
  get_locals (l, tr) = (Return l, (l, tr)).
Proof. reflexivity. Qed.

Lemma lift_run {L A} (o : outcome A) (s : L * trace) : lift o s = (o, s).
Proof. reflexivity. Qed.

(* ================================================================== *)
(** * The calibration loop *)

Section CalibrationProofs.
Context `{Extern}.
Variable self : CameraCalibration.

(** One pass of the loop body never raises, updates the locals as
    [step_locals] says and writes one line to the log. *)
Lemma process_image_step (n idx : nat) (x : value) (l : calib_locals)
      (tr : trace) :
  exists lvl msg,
    process_image self n idx x (l, tr)
    = (Return tt, (step_locals self l x, tr ++ [Log lvl msg])).
Proof.
  unfold process_image, step_locals, detection, decoded.
  unfold try_except, bind, lift, logger, emit, get_locals, set_locals, ret.
  destruct (decode_base64_image x) as [[im|]|e]; cbn [fst snd];
    try (do 2 eexists; destruct l; reflexivity).
  destruct l as [ops ips [sz|] k]; cbn [image_size fst snd];
    destruct (shape_len im =? 3);
    destruct (detect_chessboard_corners im (cc_pattern_size self))
      as [[c|]|e1]; cbn [fst snd];
    try (do 2 eexists; reflexivity);
    destruct (generate_object_points _ _) as [objp|e2]; cbn [fst snd];
    do 2 eexists; reflexivity.
Qed.

Lemma for_each_process (n : nat) (images : list value) :
  forall idx l tr,
  exists logs,
    for_each (process_image self n) idx images (l, tr)
    = (Return tt, (fold_left (step_locals self) images l, tr ++ logs))
    /\ forallb is_log logs = true
    /\ length logs = length images.
Proof.
  induction images as [|x images IH]; intros idx l tr.
  - exists []. cbn. now rewrite app_nil_r.
  - destruct (process_image_step n idx x l tr) as [lvl [msg Hx]].
    destruct (IH (S idx) (step_locals self l x) (tr ++ [Log lvl msg]))
      as [logs [Hrest [Hlogs Hlen]]].
    exists (Log lvl msg :: logs). cbn [for_each fold_left].
    rewrite (bind_return _ _ _ _ _ Hx).
    rewrite <- app_assoc in Hrest.
    split; [exact Hrest|]. split; cbn; auto.
Qed.

(** The locals after the loop. *)
Lemma loop_count_le (images : list value) :
  forall l,
    (successful_detections (fold_left (step_locals self) images l)
     <= successful_detections l + length (detections self images))%nat.
Proof.
  induction images as [|x images IH]; intros l; cbn [fold_left detections].
  - lia.
  - etransitivity; [apply IH|]. unfold step_locals, detection.
    destruct (decoded x) as [im|]; [|lia].
    destruct (detect_chessboard_corners im (cc_pattern_size self))
      as [[c|]|e]; try (cbn; lia).
    destruct (generate_object_points _ _); cbn; lia.
Qed.

Lemma loop_accumulates (objp : ObjectPoints) (images : list value) :
  generate_object_points (cc_pattern_size self) (cc_square_size self)
  = Return objp ->
  forall l,
    fold_left (step_locals self) images l
    = mkLocals
        (object_points l ++ repeat objp (length (detections self images)))
        (image_points l ++ detections self images)
        (match image_size l with
         | Some sz => Some sz
         | None => first_decoded_size images
         end)
        (successful_detections l + length (detections self images)).
Proof.
  intros Hgen.
  induction images as [|x images IH]; intros l;
    cbn [fold_left detections first_decoded_size].
  - destruct l as [ops ips [sz|] k]; cbn; now rewrite !app_nil_r, Nat.add_0_r.
  - rewrite IH. unfold step_locals, detection. rewrite Hgen.
    destruct (decoded x) as [im|].
    + destruct (detect_chessboard_corners im (cc_pattern_size self))
        as [[c|]|e]; destruct l as [ops ips [sz|] k];
        cbn [object_points image_points image_size successful_detections
             length repeat];
        rewrite <- ?app_assoc; cbn [app]; f_equal; lia.
    + now destruct l as [ops ips [sz|] k].
Qed.

Lemma loop_without_object_points (e : exn) (images : list value) :
  generate_object_points (cc_pattern_size self) (cc_square_size self)
  = Raise e ->
  forall l,
    successful_detections (fold_left (step_locals self) images l)
    = successful_detections l.
Proof.
  intros Hgen. induction images as [|x images IH]; intros l;
    cbn [fold_left]; [reflexivity|].
  rewrite IH. unfold step_locals. rewrite Hgen.
  destruct (decoded x); [|reflexivity]. now destruct (detection self x).
Qed.

(** The function up to the threshold test. *)
Lemma calibrate_after_loop (images : list value) (tr : trace) :
  exists logs,
    forallb is_log logs = true /\
    let l := fold_left (step_locals self) images calib_init in
    _calibrate_camera_from_images self images (calib_init, tr)
    = if (successful_detections l <? 3)%nat
      then (Raise (mkExn PlainException
                     (insufficient_msg (successful_detections l)
                                       (length images))),
            (l, tr ++ logs))
      else solve_and_score (l, tr ++ logs).
Proof.
  destruct (for_each_process (length images) images 0 calib_init
              (tr ++ [Log INFO (MsgStartCalibration (length images))]))
    as [logs [Hloop [Hlogs _]]].
  exists (Log INFO (MsgStartCalibration (length images)) :: logs).
  split; [exact Hlogs|]. cbv zeta.
  unfold _calibrate_camera_from_images.
  rewrite (bind_return _ _ _ _ _ (logger_run _ _ _ _)).
  rewrite (bind_return _ _ _ _ _ Hloop).
  rewrite (bind_return _ _ _ _ _ (get_locals_run _ _)).
  rewrite <- app_assoc. cbn [app].
  now destruct (successful_detections _ <? 3)%nat.
Qed.

(** ** The solver, the score and the result *)

Lemma format_result_fields (rms err : F64.t) (l : calib_locals)
      (K : Matrix) (d : Vector) (result : dict) :
  format_result rms err l K d = Return result ->
  dict_get result "success" = Some (VBool true) /\
  dict_get result "rms_error" = Some (VFloat rms) /\
  dict_get result "reprojection_error" = Some (VFloat err) /\
  dict_get result "num_images"
    = Some (VInt (Z.of_nat (successful_detections l))) /\
  exists w h,
    image_size l = Some (w, h) /\
    dict_get result "image_size"
    = Some (VDict [("width", VInt w); ("height", VInt h)]).
Proof.
  unfold format_result.
  destruct (image_size l) as [[w h]|]; [|discriminate]. cbn [obind].
  repeat match goal with
         | |- obind ?m _ = _ -> _ =>
             destruct m; cbn [obind]; [|discriminate]
         end.
  intros [= <-]. repeat split; try reflexivity.
  exists w, h. split; reflexivity.
Qed.

Lemma solve_and_score_inv (l : calib_locals) (tr : trace) (result : dict)
      (s' : calib_locals * trace) :
  solve_and_score (l, tr) = (Return result, s') ->
  exists rms K d rvecs tvecs mean err,
    calibrateCamera (object_points l) (image_points l) (image_size l)
                    (repeat (repeat F32.zero 3) 3) (repeat F32.zero 5)
                    cv2.CALIB_RATIONAL_MODEL
    = Return (rms, K, d, rvecs, tvecs) /\
    reprojection_loop (object_points l) (image_points l) rvecs tvecs K d
                      (seq 0 (length (object_points l))) (F64.of_Z 0)
    = Return mean /\
    py_truediv mean (Z.of_nat (length (object_points l))) = Return err /\
    format_result rms err l K d = Return result /\
    s' = (l, tr ++ [Log INFO MsgRunningCalibration;
                    CallCalibrateCamera (object_points l) (image_points l)
                                        (image_size l);
                    Log INFO (MsgCalibrationComplete rms);
                    Log INFO (MsgMeanReprojection err)]).
Proof.
  unfold solve_and_score, bind, lift, logger, emit, get_locals, ret.
  cbn [fst snd].
  destruct (calibrateCamera _ _ _ _ _ _)
    as [[[[[rms K] d] rvecs] tvecs]|e]; [|discriminate].
  destruct (reprojection_loop _ _ _ _ _ _ _ _) as [mean|e] eqn:Hloop;
    [|discriminate].
  destruct (py_truediv mean _) as [err|e] eqn:Hdiv; [|discriminate].
  cbn [fst snd].
  destruct (format_result rms err l K d) as [r|e] eqn:Hfmt; [|discriminate].
  intros [= <- <-]. exists rms, K, d, rvecs, tvecs, mean, err.
  repeat split; try assumption; try reflexivity.
  now rewrite <- !app_assoc.
Qed.

(** ** The re-projection loop against the mean of the specification *)

Lemma skipn_nth_cons {A} (l : list A) :
  forall i a, nth_error l i = Some a -> skipn i l = a :: skipn (S i) l.
Proof.
  induction l as [|b l IH]; intros [|i] a Hi; try discriminate.
  - now injection Hi as ->.
  - cbn in Hi. now rewrite skipn_cons, (IH _ _ Hi).
Qed.

Lemma mapM_length {A B} (f : A -> outcome B) (l : list A) :
  forall bs, mapM f l = Return bs -> length bs = length l.
Proof.
  induction l as [|a l IH]; intros bs; cbn [mapM].
  - now intros [= <-].
  - destruct (f a); [|discriminate]. cbn [obind].
    destruct (mapM f l); [|discriminate]. cbn [obind].
    intros [= <-]. cbn. f_equal. now apply IH.
Qed.

(** Python's division of a float by a count is the IEEE division by
    the rounded count, and raises for the count zero. *)
Lemma py_truediv_count (x : F64.t) (n : nat) :
  py_truediv x (Z.of_nat n)
  = match n with
    | O => Raise (mkExn ZeroDivisionError "float division by zero")
    | S _ => Return (SFdiv 53 1024 x (binary64_of_nat n))
    end.
Proof. destruct n; reflexivity. Qed.

Lemma reprojection_loop_mapM (obj : list ObjectPoints) (img : list Corners)
      (rvecs tvecs : list Vector) (K : Matrix) (d : Vector) :
  forall k i acc m,
    (i + k = length obj)%nat ->
    reprojection_loop obj img rvecs tvecs K d (seq i k) acc = Return m ->
    exists errs,
      mapM (view_error K d)
           (views_of (skipn i obj) (skipn i img) (skipn i rvecs)
                     (skipn i tvecs))
      = Return errs /\
      m = fold_left (SFadd 53 1024) errs acc /\
      length errs = k.
Proof.
  induction k as [|k IH]; intros i acc m Hik.
  - cbn [seq reprojection_loop]. intros [= <-]. exists [].
    rewrite (skipn_all2 obj) by lia. repeat split; reflexivity.
  - cbn [seq reprojection_loop]. unfold py_index.
    destruct (nth_error obj i) as [o|] eqn:Ho; [|discriminate].
    cbn [obind].
    destruct (nth_error rvecs i) as [r|] eqn:Hr; [|discriminate].
    cbn [obind].
    destruct (nth_error tvecs i) as [t|] eqn:Ht; [|discriminate].
    cbn [obind].
    destruct (projectPoints o r t K d) as [[pts jac]|e] eqn:Hp;
      [|discriminate].
    cbn [obind].
    destruct (nth_error img i) as [c|] eqn:Hc; [|discriminate].
    cbn [obind].
    destruct (norm c pts cv2.NORM_L2) as [dist|e] eqn:Hn; [|discriminate].
    cbn [obind].
    rewrite py_truediv_count.
    destruct (length pts) as [|count] eqn:Hcount; [discriminate|].
    cbn [obind]. intros Hrest.
    destruct (IH (S i) _ _ ltac:(lia) Hrest) as (errs & Herrs & -> & Hlen).
    exists (SFdiv 53 1024 dist (binary64_of_nat (S count)) :: errs).
    rewrite (skipn_nth_cons _ _ _ Ho), (skipn_nth_cons _ _ _ Hr),
      (skipn_nth_cons _ _ _ Ht), (skipn_nth_cons _ _ _ Hc).
    unfold views_of in *. cbn [combine mapM view_error].
    rewrite Hp. cbn [obind]. rewrite Hn. cbn [obind]. rewrite Hcount.
    cbn [obind]. rewrite Herrs. cbn [obind length].
    split; [reflexivity|]. split; [reflexivity|now rewrite Hlen].
Qed.

(** Conversely, when the views can be scored the loop returns their
    sum. *)
Lemma mapM_reprojection_loop (obj : list ObjectPoints) (img : list Corners)
      (rvecs tvecs : list Vector) (K : Matrix) (d : Vector) :
  length img = length obj ->
  length rvecs = length obj ->
  length tvecs = length obj ->
  forall k i acc errs,
    (i + k = length obj)%nat ->
    mapM (view_error K d)
         (views_of (skipn i obj) (skipn i img) (skipn i rvecs)
                   (skipn i tvecs))
    = Return errs ->
    reprojection_loop obj img rvecs tvecs K d (seq i k) acc
    = Return (fold_left (SFadd 53 1024) errs acc).
Proof.
  intros Himg Hrv Htv.
  induction k as [|k IH]; intros i acc errs Hik Hmap.
  - rewrite (skipn_all2 obj) in Hmap by lia. cbn in Hmap.
    injection Hmap as <-. reflexivity.
  - destruct (nth_error obj i) as [o|] eqn:Ho;
      [|apply nth_error_None in Ho; lia].
    destruct (nth_error img i) as [c|] eqn:Hc;
      [|apply nth_error_None in Hc; lia].
    destruct (nth_error rvecs i) as [r|] eqn:Hr;
      [|apply nth_error_None in Hr; lia].
    destruct (nth_error tvecs i) as [t|] eqn:Ht;
      [|apply nth_error_None in Ht; lia].
    rewrite (skipn_nth_cons _ _ _ Ho), (skipn_nth_cons _ _ _ Hr),
      (skipn_nth_cons _ _ _ Ht), (skipn_nth_cons _ _ _ Hc) in Hmap.
    unfold views_of in *. cbn [combine mapM view_error] in Hmap.
    cbn [seq reprojection_loop]. unfold py_index.
    rewrite Ho, Hr, Ht, Hc. cbn [obind].
    destruct (projectPoints o r t K d) as [[pts jac]|e];
      [|discriminate]. cbn [obind] in *.
    destruct (norm c pts cv2.NORM_L2) as [dist|e]; [|discriminate].
    cbn [obind] in *. rewrite py_truediv_count.
    destruct (length pts) as [|count]; [discriminate|]. cbn [obind] in *.
    destruct (mapM _ _) as [errs'|e] eqn:Hrest; [|discriminate].
    cbn [obind] in Hmap. injection Hmap as <-.
    rewrite (IH (S i) _ errs' ltac:(lia) Hrest). reflexivity.
Qed.

Lemma solve_and_score_returns (l : calib_locals) (tr : trace)
      (rms : F64.t) (K : Matrix) (d : Vector) (rvecs tvecs : list Vector)
      (mean err : F64.t) (result : dict) :
  calibrateCamera (object_points l) (image_points l) (image_size l)
                  (repeat (repeat F32.zero 3) 3) (repeat F32.zero 5)
                  cv2.CALIB_RATIONAL_MODEL
  = Return (rms, K, d, rvecs, tvecs) ->
  reprojection_loop (object_points l) (image_points l) rvecs tvecs K d
                    (seq 0 (length (object_points l))) (F64.of_Z 0)
  = Return mean ->
  py_truediv mean (Z.of_nat (length (object_points l))) = Return err ->
  format_result rms err l K d = Return result ->
  fst (solve_and_score (l, tr)) = Return result.
Proof.
  intros Hcal Hloop Hdiv Hfmt.
  unfold solve_and_score, bind, lift, logger, emit, get_locals, ret.
  cbn [fst snd]. rewrite Hcal, Hloop, Hdiv. cbn [fst snd].
  now rewrite Hfmt.
Qed.

End CalibrationProofs.

(* ================================================================== *)
(** * Batch calibration: the claims *)

Section CalibrationClaims.
Context `{Extern}.
Variable self : CameraCalibration.

Lemma logs_hold_no_solver_call (logs : trace) :
  forallb is_log logs = true -> existsb is_solver_call logs = false.
Proof.
  induction logs as [|e logs IH]; [reflexivity|].
  cbn. destruct e; cbn; try discriminate. exact IH.
Qed.

Lemma loop_result (objp : ObjectPoints) (images : list value) :
  generate_object_points (cc_pattern_size self) (cc_square_size self)
  = Return objp ->
  fold_left (step_locals self) images calib_init = accumulated self objp images.
Proof.
  intros Hgen. now rewrite (loop_accumulates self objp images Hgen).
Qed.

(** Everything a successful run went through. *)
Lemma calibrate_success_inv (images : list value) (tr : trace)
      (result : dict) (s' : calib_locals * trace) :
  _calibrate_camera_from_images self images (calib_init, tr)
  = (Return result, s') ->
  exists objp logs rms K d rvecs tvecs mean err,
    let l := accumulated self objp images in
    generate_object_points (cc_pattern_size self) (cc_square_size self)
    = Return objp /\
    forallb is_log logs = true /\
    (3 <= length (detections self images))%nat /\
    calibrateCamera (object_points l) (image_points l) (image_size l)
                    (repeat (repeat F32.zero 3) 3) (repeat F32.zero 5)
                    cv2.CALIB_RATIONAL_MODEL
    = Return (rms, K, d, rvecs, tvecs) /\
    reprojection_loop (object_points l) (image_points l) rvecs tvecs K d
                      (seq 0 (length (object_points l))) (F64.of_Z 0)
    = Return mean /\
    py_truediv mean (Z.of_nat (length (object_points l))) = Return err /\
    format_result rms err l K d = Return result /\
    s' = (l, tr ++ logs ++ solver_events l rms err).
Proof.
  intros Hrun.
  destruct (calibrate_after_loop self images tr) as [logs [Hlogs Heq]].
  cbv zeta in Heq. rewrite Heq in Hrun. clear Heq.
  destruct (Nat.ltb_spec
              (successful_detections
                 (fold_left (step_locals self) images calib_init)) 3)
    as [Hlt|Hge]; [discriminate|].
  destruct (generate_object_points (cc_pattern_size self)
                                   (cc_square_size self))
    as [objp|e] eqn:Hgen.
  - rewrite (loop_result objp images Hgen) in Hrun, Hge.
    destruct (solve_and_score_inv _ _ _ _ Hrun)
      as (rms & K & d & rvecs & tvecs & mean & err
          & Hcal & Hloop & Hdiv & Hfmt & ->).
    exists objp, logs, rms, K, d, rvecs, tvecs, mean, err. cbv zeta.
    repeat split; try assumption.
    now rewrite <- app_assoc.
  - rewrite (loop_without_object_points self e images Hgen) in Hge.
    cbn in Hge. lia.
Qed.

Lemma do_command_images (images : list value) (tr : trace) :
  images <> [] ->
  do_command self
    [("calibrate_camera", VDict [("images", VList images)])] (tt, tr)
  = try_except
      (call calib_init (_calibrate_camera_from_images self images))
      (fun e =>
         logger ERROR (MsgCalibrationFailed e) ;;;
         ret [ ("success", VBool false); ("error", VStr (exn_msg e)) ])
      (tt, tr).
Proof.
  intros Hne. destruct images as [|x images]; [contradiction|reflexivity].
Qed.

(** C2. When fewer than three inputs yield a successful corner
    detection, [_calibrate_camera_from_images] raises the insufficient
    data exception; between the start and the raise only log lines are
    written, so the solver has not been called; and [do_command] turns
    the exception into a structured failure carrying its message. *)
Theorem insufficient_data_fails_before_solver
        (images : list value) (tr : trace) :
  (length (detections self images) < 3)%nat ->
  exists found l' logs,
    (found < 3)%nat /\
    _calibrate_camera_from_images self images (calib_init, tr)
    = (Raise (mkExn PlainException
                (insufficient_msg found (length images))),
       (l', tr ++ logs)) /\
    existsb is_solver_call logs = false /\
    (images <> [] ->
     fst (do_command self
            [("calibrate_camera", VDict [("images", VList images)])]
            (tt, tr))
     = Return [ ("success", VBool false);
                ("error",
                 VStr (insufficient_msg found (length images))) ]).
Proof.
  intros Hfew.
  destruct (calibrate_after_loop self images tr) as [logs [Hlogs Heq]].
  cbv zeta in Heq.
  pose proof (loop_count_le self images calib_init) as Hle.
  cbn [successful_detections calib_init Nat.add] in Hle.
  set (l := fold_left (step_locals self) images calib_init) in *.
  destruct (Nat.ltb_spec (successful_detections l) 3) as [Hlt|Hge]; [|lia].
  exists (successful_detections l), l, logs.
  repeat split; try assumption.
  - now apply logs_hold_no_solver_call.
  - intros Hne. rewrite (do_command_images images tr Hne).
    unfold try_except, call. cbn [fst snd]. rewrite Heq. reflexivity.
Qed.

Lemma match_count {A} (n : nat) (a b : A) :
  (0 < n)%nat -> match n with O => a | S _ => b end = b.
Proof. destruct n; [lia|reflexivity]. Qed.

Lemma detections_decoded (images : list value) :
  detections self images <> [] ->
  exists w h, first_decoded_size images = Some (w, h).
Proof.
  induction images as [|x images IH];
    cbn [detections first_decoded_size]; [contradiction|].
  unfold detection. destruct (decoded x) as [im|]; [|exact IH].
  intros _. now exists (width im), (height im).
Qed.

(** C3. With a valid pattern geometry and at least three inputs with a
    successful detection, the inputs that fail do not abort the batch:
    the object points exist, a first decoded image fixes the size, and
    whenever the OpenCV calls on the data of the detected inputs answer
    (the solver on one object point set per detection and the detected
    corners, the re-projection and the norm for each of those views),
    the run returns the result with [success] true, [num_images] the
    number of inputs with a successful detection, the solver's residual
    on exactly those inputs and the mean re-projection error over
    exactly those views; [do_command] returns that same mapping. *)
Theorem partial_failure_is_tolerated
        (images : list value) (tr : trace) (cols rows : Z) :
  cc_pattern_size self = [cols; rows] ->
  2 <= cols -> 2 <= rows ->
  (3 <= length (detections self images))%nat ->
  exists objp w h,
    generate_object_points [cols; rows] (cc_square_size self)
    = Return objp /\
    first_decoded_size images = Some (w, h) /\
    forall rms K d rvecs tvecs err fx fy cx cy k1 k2 p1 p2 k3,
      let found := detections self images in
      let object_points := repeat objp (length found) in
      calibrateCamera object_points found (Some (w, h))
                      (repeat (repeat F32.zero 3) 3) (repeat F32.zero 5)
                      cv2.CALIB_RATIONAL_MODEL
      = Return (rms, K, d, rvecs, tvecs) ->
      length rvecs = length found ->
      length tvecs = length found ->
      mean_reprojection_error_spec
        K d (views_of object_points found rvecs tvecs)
      = Return err ->
      mat_get K 0 0 = Return fx -> mat_get K 1 1 = Return fy ->
      mat_get K 0 2 = Return cx -> mat_get K 1 2 = Return cy ->
      firstn 5 d = [k1; k2; p1; p2; k3] ->
      let result :=
        [ ("success", VBool true);
          ("rms_error", VFloat rms);
          ("reprojection_error", VFloat err);
          ("num_images", VInt (Z.of_nat (length found)));
          ("image_size", VDict [("width", VInt w); ("height", VInt h)]);
          ("camera_matrix",
            VDict [("fx", VFloat fx); ("fy", VFloat fy);
                   ("cx", VFloat cx); ("cy", VFloat cy)]);
          ("distortion_coefficients",
            VDict [("k1", VFloat k1); ("k2", VFloat k2); ("p1", VFloat p1);
                   ("p2", VFloat p2); ("k3", VFloat k3)]) ] in
      fst (_calibrate_camera_from_images self images (calib_init, tr))
      = Return result /\
      fst (do_command self
             [("calibrate_camera", VDict [("images", VList images)])]
             (tt, tr))
      = Return result.
Proof.
  intros Hpat Hc Hr Hn.
  pose proof (generate_object_points_eq cols rows (cc_square_size self)
                ltac:(lia) ltac:(lia)) as Hgen.
  assert (Hne : detections self images <> []).
  { intros Hnil. rewrite Hnil in Hn. cbn in Hn. lia. }
  destruct (detections_decoded images Hne) as (w & h & Hsize).
  eexists. exists w, h. split; [exact Hgen|]. split; [exact Hsize|].
  intros rms K d rvecs tvecs err fx fy cx cy k1 k2 p1 p2 k3 found objs
         Hcal Hrv Htv Hmean Hfx Hfy Hcx Hcy Hd result.
  rewrite <- Hpat in Hgen.
  destruct (calibrate_after_loop self images tr) as [logs [Hlogs Heq]].
  cbv zeta in Heq. rewrite (loop_result _ images Hgen) in Heq.
  cbn [accumulated successful_detections] in Heq.
  destruct (Nat.ltb_spec (length (detections self images)) 3) as [Hlt|_];
    [lia|].
  assert (Hobjs : length objs = length found)
    by (unfold objs; apply repeat_length).
  assert (Hrun : fst (_calibrate_camera_from_images self images
                                                    (calib_init, tr))
                 = Return result).
  { rewrite Heq. unfold mean_reprojection_error_spec in Hmean.
    destruct (mapM _ _) as [errs|e] eqn:Hmap; [|discriminate].
    cbn [obind] in Hmean.
    assert (Hviews : length (views_of objs found rvecs tvecs)
                     = length found).
    { unfold views_of, objs.
      rewrite !length_combine, repeat_length, Hrv, Htv.
      now rewrite !Nat.min_id. }
    rewrite Hviews, match_count in Hmean by (unfold found; lia).
    injection Hmean as Hmean.
    unfold accumulated. fold found. fold objs.
    apply (solve_and_score_returns _ _ rms K d rvecs tvecs
             (fold_left (SFadd 53 1024) errs (S754_zero false)) err);
      cbn [object_points image_points image_size successful_detections].
    - rewrite Hsize. exact Hcal.
    - apply (mapM_reprojection_loop objs found rvecs tvecs K d).
      + unfold objs. now rewrite repeat_length.
      + unfold objs. now rewrite repeat_length.
      + unfold objs. now rewrite repeat_length.
      + reflexivity.
      + rewrite !skipn_O. exact Hmap.
    - try unfold objs.
      rewrite repeat_length, py_truediv_count, match_count
        by (unfold found; lia).
      now rewrite Hmean.
    - unfold format_result. cbn [image_size]. rewrite Hsize.
      cbn [obind]. rewrite Hfx, Hfy, Hcx, Hcy. cbn [obind].
      destruct d as [|? [|? [|? [|? [|? d]]]]]; try discriminate Hd.
      injection Hd as -> -> -> -> ->.
      reflexivity. }
  split; [exact Hrun|].
  assert (Himages : images <> []).
  { intros ->. cbn in Hne. contradiction. }
  rewrite (do_command_images images tr Himages).
  unfold try_except, call. cbn [fst snd].
  destruct (_calibrate_camera_from_images self images (calib_init, tr))
    as [r [l t]].
  cbn [fst] in Hrun. now subst r.
Qed.

(** C4. In a successful run the reported [reprojection_error] is the mean
    re-projection error of the specification over the accumulated views
    (per view: the L2 norm between the detected corners and the
    re-projected object points, divided by the number of re-projected
    points; then the sum of these divided by the number of views, in
    binary64), there is one view per input with a successful detection,
    and [rms_error] is the residual returned by the solver itself. *)
Theorem reprojection_error_is_mean_over_views
        (images : list value) (tr : trace) (result : dict)
        (s' : calib_locals * trace) :
  _calibrate_camera_from_images self images (calib_init, tr)
  = (Return result, s') ->
  exists rms K d rvecs tvecs err,
    let l := fst s' in
    let views := views_of (object_points l) (image_points l) rvecs tvecs in
    image_points l = detections self images /\
    calibrateCamera (object_points l) (image_points l) (image_size l)
                    (repeat (repeat F32.zero 3) 3) (repeat F32.zero 5)
                    cv2.CALIB_RATIONAL_MODEL
    = Return (rms, K, d, rvecs, tvecs) /\
    length views = length (detections self images) /\
    mean_reprojection_error_spec K d views = Return err /\
    dict_get result "reprojection_error" = Some (VFloat err) /\
    dict_get result "rms_error" = Some (VFloat rms).
Proof.
  intros Hrun.
  destruct (calibrate_success_inv images tr result s' Hrun)
    as (objp & logs & rms & K & d & rvecs & tvecs & mean & err & Hinv).
  cbv zeta in Hinv.
  destruct Hinv as (Hgen & Hlogs & Hn & Hcal & Hloop & Hdiv & Hfmt & ->).
  exists rms, K, d, rvecs, tvecs, err. cbv zeta. cbn [fst].
  destruct (format_result_fields _ _ _ _ _ _ Hfmt)
    as (_ & Hrms & Herr & _ & _).
  destruct (reprojection_loop_mapM _ _ _ _ _ _ _ 0%nat _ _ eq_refl Hloop)
    as (errs & Hmap & -> & Hlen).
  rewrite !skipn_O in Hmap.
  pose proof (mapM_length _ _ _ Hmap) as Hviews. rewrite Hlen in Hviews.
  repeat split; try assumption.
  - rewrite <- Hviews. cbn [accumulated object_points].
    now rewrite repeat_length.
  - unfold mean_reprojection_error_spec. rewrite Hmap. cbn [obind].
    rewrite <- Hviews. rewrite py_truediv_count in Hdiv. exact Hdiv.
Qed.

(** C7, amended. In a successful run the reported [image_size] is that
    of the first input that decodes, whether or not the pattern is found
    in it, and the one solver call of the run receives that size. *)
Theorem image_size_is_first_decoded
        (images : list value) (tr : trace) (result : dict)
        (s' : calib_locals * trace) :
  _calibrate_camera_from_images self images (calib_init, tr)
  = (Return result, s') ->
  exists w h objs imgs before after,
    first_decoded_size images = Some (w, h) /\
    dict_get result "image_size"
    = Some (VDict [("width", VInt w); ("height", VInt h)]) /\
    snd s'
    = tr ++ before ++ CallCalibrateCamera objs imgs (Some (w, h)) :: after /\
    forallb is_log before = true /\
    forallb is_log after = true.
Proof.
  intros Hrun.
  destruct (calibrate_success_inv images tr result s' Hrun)
    as (objp & logs & rms & K & d & rvecs & tvecs & mean & err & Hinv).
  cbv zeta in Hinv.
  destruct Hinv as (Hgen & Hlogs & Hn & Hcal & Hloop & Hdiv & Hfmt & ->).
  destruct (format_result_fields _ _ _ _ _ _ Hfmt)
    as (_ & _ & _ & _ & w & h & Hsize & Hfield).
  cbn [accumulated image_size] in Hsize.
  exists w, h, (repeat objp (length (detections self images))),
    (detections self images), (logs ++ [Log INFO MsgRunningCalibration]),
    [Log INFO (MsgCalibrationComplete rms);
     Log INFO (MsgMeanReprojection err)].
  repeat split; try assumption; try reflexivity.
  - cbn [snd]. unfold solver_events, accumulated.
    cbn [object_points image_points image_size].
    rewrite Hsize, <- !app_assoc. reflexivity.
  - rewrite forallb_app, Hlogs. reflexivity.
Qed.

End CalibrationClaims.

(* ================================================================== *)
(** * The image decoder *)

(** C9, amended. [decode_base64_image] has no handler of its own: on a
    string that [base64.b64decode] rejects it raises that exception, which
    the per-image handler of the batch calibration catches, leaving the
    locals untouched and logging a warning (the image is skipped); on a
    string that decodes as base64 to bytes in which [cv2.imdecode] finds
    no image it returns [None] and raises nothing. *)
Theorem decoder_raises_or_returns_none `{Extern} (self : CameraCalibration)
        (s : string) :
  (forall e,
     Base64.b64decode (strip_data_uri s) = Raise e ->
     decode_base64_image (VStr s) = Raise e /\
     forall n idx l tr,
       process_image self n idx (VStr s) (l, tr)
       = (Return tt,
          (l, tr ++ [Log WARNING (MsgImageError (idx + 1) e)]))) /\
  (forall bytes,
     Base64.b64decode (strip_data_uri s) = Return bytes ->
     imdecode bytes cv2.IMREAD_COLOR = Return None ->
     decode_base64_image (VStr s) = Return None).
Proof.
  split.
  - intros e Hbad.
    assert (Hdec : decode_base64_image (VStr s) = Raise e).
    { cbn [decode_base64_image]. unfold decode_base64_str.
      now rewrite Hbad. }
    split; [exact Hdec|]. intros n idx l tr.
    unfold process_image, try_except.
    rewrite (bind_raise _ _ _ e (l, tr)); [reflexivity|].
    now rewrite lift_run, Hdec.
  - intros bytes Hok Hnone.
    cbn [decode_base64_image]. unfold decode_base64_str.
    rewrite Hok. cbn [obind]. now rewrite Hnone.
Qed.


(* ================================================================== *)
(** * The pose tracker *)

Section PoseProofs.
Context `{Extern}.
Variable self : Chessboard.


(** The frame selection loop never raises and only writes to the log. *)
Lemma select_loop_run (first : NamedImage) (rest : list NamedImage)
      (frames : list NamedImage) :
  forall idx v tr,
  exists v' logs,
    for_each (select_image (first :: rest)) idx frames (v, tr)
    = (Return tt, (v', tr ++ logs)) /\
    forallb is_log logs = true.
Proof.
  induction frames as [|image frames IH]; intros idx v tr.
  - exists v, []. cbn. now rewrite app_nil_r.
  - cbn [for_each]. unfold select_image at 1.
    destruct (is_jpeg (mime_type image)).
    + destruct (IH (S idx) (Some (data first))
                   (tr ++ [Log DEBUG (MsgText "Found image from camera")]))
        as (v' & logs & Hrest & Hlogs).
      exists v', (Log DEBUG (MsgText "Found image from camera") :: logs).
      rewrite <- app_assoc in Hrest. split; [|exact Hlogs].
      erewrite bind_return; [exact Hrest|]. reflexivity.
    + destruct (IH (S idx) v tr) as (v' & logs & Hrest & Hlogs).
      exists v', logs. split; [|exact Hlogs].
      erewrite bind_return; [exact Hrest|]. reflexivity.
Qed.

(** How a pose query goes up to the choice of the frame. *)
Lemma get_poses_cases (names : list string) (tr : trace)
      (r : outcome (option string * option PoseInFrame))
      (s' : unit * trace) :
  get_poses self names (tt, tr) = (r, s') ->
  (exists e, r = Raise e /\ s' = (tt, tr)) \/
  exists logs,
    forallb is_log logs = true /\
    ((exists e, r = Raise e /\ s' = (tt, tr ++ logs)) \/
     (exists err logs',
        r = Return (Some err, None) /\ forallb is_log logs' = true /\
        s' = (tt, tr ++ logs')) \/
     (exists viam_image v v',
        pose_from_image self viam_image (v, tr ++ logs)
        = (r, (v', snd s')))).
Proof.
  unfold get_poses, call, get_poses_body. cbn [fst snd].
  unfold bind at 1. rewrite lift_run.
  destruct (get_images (camera self)) as [frames|e].
  - intros Hrun. right.
    assert (Hloop : exists v logs,
               for_each (select_image frames) 0 frames (None, tr)
               = (Return tt, (v, tr ++ logs)) /\
               forallb is_log logs = true).
    { destruct frames as [|first rest].
      - exists None, []. cbn. now rewrite app_nil_r.
      - apply select_loop_run. }
    destruct Hloop as (v & logs & Hloop & Hlogs).
    rewrite (bind_return _ _ _ _ _ Hloop) in Hrun.
    rewrite (bind_return _ _ _ _ _ (get_locals_run _ _)) in Hrun.
    exists logs. split; [exact Hlogs|].
    destruct v as [[viam_image|]|].
    + right. right. exists viam_image, (Some (Some viam_image)).
      destruct (pose_from_image self viam_image _) as [r0 [v' t']].
      injection Hrun as <- <-. now exists v'.
    + right. left. cbn in Hrun. injection Hrun as <- <-.
      exists "Could not get latest image from camera",
        (logs ++ [Log ERROR
                    (MsgText "Could not get latest image from camera")]).
      repeat split.
      * rewrite forallb_app, Hlogs. reflexivity.
      * now rewrite app_assoc.
    + left. cbn in Hrun. injection Hrun as <- <-.
      eexists. split; reflexivity.
  - intros [= <- <-]. left. now exists e.
Qed.


(** A run that gets as far as the pose never returns one: the three
    coordinates handed to [Pose] are arrays, which it refuses. *)
Lemma pose_from_image_no_pose (viam_image : list Z) (st st' : pose_locals * trace)
      (key : option string) (p : PoseInFrame) :
  pose_from_image self viam_image st <> (Return (key, Some p), st').
Proof.
  destruct st as [v tr].
  unfold pose_from_image, get_camera_intrinsics, millimetres.
  unfold bind, lift, logger, emit, ret, raise.
  intros Hrun. run_cases Hrun; try discriminate.
  all: match goal with
       | Hp : Pose_init (NdArray _) _ _ _ _ _ _ = Return _ |- _ =>
           discriminate Hp
       end.
Qed.

Lemma get_poses_reports_no_pose (names : list string) (st : unit * trace) :
  ~ reports_pose (fst (get_poses self names st)).
Proof.
  intros (key & p & Hret). destruct st as [[] tr].
  destruct (get_poses self names (tt, tr)) as [r s'] eqn:Hrun.
  cbn [fst] in Hret. subst r.
  destruct (get_poses_cases _ _ _ _ Hrun)
    as [(e & He & _)|(logs & Hlogs & [(e & He & _)|[Herr|Hpose]])];
    try discriminate He.
  - destruct Herr as (err & logs' & Herr & _). discriminate Herr.
  - destruct Hpose as (viam_image & v & v' & Hpose).
    exact (pose_from_image_no_pose _ _ _ _ _ Hpose).
Qed.


Lemma pose_from_image_returns (viam_image : list Z) (v v' : pose_locals)
      (tr tr' : trace) (key : option string) (val : option PoseInFrame) :
  pose_from_image self viam_image (v, tr) = (Return (key, val), (v', tr')) ->
  (exists p, key = Some "pose" /\ val = Some p) \/
  (exists err, key = Some err /\ val = None) \/
  (key = None /\ val = None /\
   In (Stdout "Could not solve PnP for chessboard") tr').
Proof.
  unfold pose_from_image, get_camera_intrinsics, millimetres.
  unfold bind, lift, logger, emit, ret, raise.
  intros Hrun. run_cases Hrun; try discriminate.
  all: cbn [fst snd] in Hrun; injection Hrun as <- <- <- <-.
  all: first [ left; eexists; split; reflexivity
             | right; left; eexists; split; reflexivity
             | right; right; repeat split;
               rewrite ?in_app_iff; cbn [In]; tauto ].
Qed.


(** X3. Every value a pose query can return: a pose keyed ["pose"], an error
    message with no pose, or, after the message printed when [solvePnP]
    reports failure, neither. *)
Lemma get_poses_returns (names : list string) (key : option string)
      (val : option PoseInFrame) (s' : unit * trace) :
  get_poses self names (tt, []) = (Return (key, val), s') ->
  (exists p, key = Some "pose" /\ val = Some p) \/
  (exists err, key = Some err /\ val = None) \/
  (key = None /\ val = None /\
   In (Stdout "Could not solve PnP for chessboard") (snd s')).
Proof.
  intros Hrun.
  destruct (get_poses_cases _ _ _ _ Hrun)
    as [(e & He & _)|(logs & Hlogs & [(e & He & _)|[Herr|Hpose]])];
    try discriminate He.
  - destruct Herr as (err & logs' & [= -> ->] & _).
    right. left. now exists err.
  - destruct Hpose as (viam_image & v & v' & Hpose).
    exact (pose_from_image_returns _ _ _ _ _ _ _ Hpose).
Qed.

End PoseProofs.

(* ================================================================== *)
(** * [do_command] *)

Section CommandProofs.
Context `{Extern}.
Variable self : CameraCalibration.

(** X1. [do_command] raises [NotImplementedError] exactly for the
    commands that do not hold the key [calibrate_camera], whatever else
    they hold: such a command is logged as unknown and refused with the
    message that ends in Python's [repr] of the list of its keys, and a
    command that holds the key never ends in [NotImplementedError]. *)
Lemma do_command_unsupported (command : dict) (tr : trace) :
  (dict_get command "calibrate_camera" = None ->
   do_command self command (tt, tr)
   = (Raise (mkExn NotImplementedError
               (String.append "command not supported: "
                              (repr_keys (dict_keys command)))),
      (tt, tr ++ [Log ERROR (MsgUnknownCommand (dict_keys command))]))) /\
  (forall msg,
     fst (do_command self command (tt, tr))
     = Raise (mkExn NotImplementedError msg) ->
     dict_get command "calibrate_camera" = None).
Proof.
  unfold do_command.
  destruct (dict_get command "calibrate_camera") as [params|];
    [|split; [reflexivity|intros; reflexivity]].
  split; [discriminate|]. intros msg Hraise. exfalso. revert Hraise.
  unfold bind, lift, params_get_images, ret.
  destruct params as [| | | | | |d]; try discriminate.
  destruct (dict_get d "images") as [[| | | | |images|]|]; cbn [fst snd];
    try discriminate.
  destruct (length images =? 0)%nat; [discriminate|].
  unfold try_except, call, bind, logger, emit. cbn [fst snd].
  destruct (_calibrate_camera_from_images self images (calib_init, tr))
    as [[result|e] [l t]]; discriminate.
Qed.

(** X2. A [calibrate_camera] command whose payload is [None] or a mapping is
    answered by a mapping with a [success] flag. *)
Lemma do_command_structured (command : dict) (params : value) (tr : trace) :
  dict_get command "calibrate_camera" = Some params ->
  params = VNone \/ (exists d, params = VDict d) ->
  structured_response (fst (do_command self command (tt, tr))).
Proof.
  intros Hget Hshape. unfold do_command. rewrite Hget.
  assert (Hfalse : forall msg,
             structured_response
               (Return [("success", VBool false); ("error", VStr msg)])).
  { intros msg. do 2 eexists. split; reflexivity. }
  destruct Hshape as [->|[d ->]].
  - cbn. apply Hfalse.
  - unfold bind, lift, params_get_images.
    destruct (dict_get d "images") as [v|]; [|apply Hfalse].
    destruct v as [| | | | |images|]; try apply Hfalse.
    cbn [fst snd]. destruct images as [|x images]; [apply Hfalse|].
    cbn [length Nat.eqb]. unfold try_except, call. cbn [fst snd].
    destruct (_calibrate_camera_from_images self (x :: images)
                (calib_init, tr)) as [[result|e] [l t]] eqn:Hrun.
    + destruct (calibrate_success_inv self _ _ _ _ Hrun)
        as (objp & logs & rms & K & dd & rvecs & tvecs & mean & err & Hinv).
      cbv zeta in Hinv.
      destruct Hinv as (_ & _ & _ & _ & _ & _ & Hfmt & _).
      destruct (format_result_fields _ _ _ _ _ _ Hfmt) as (Hs & _).
      exists result, true. split; [reflexivity|exact Hs].
    + apply Hfalse.
Qed.

(** C8 at the payload the code does not guard: when the value under
    [calibrate_camera] is a string, [params.get] raises and no mapping is
    returned. *)
Theorem do_command_non_mapping_payload (s : string) (tr : trace) :
  do_command self [("calibrate_camera", VStr s)] (tt, tr)
  = (Raise (mkExn AttributeError "object has no attribute 'get'"), (tt, tr))
  /\ ~ structured_response
         (fst (do_command self [("calibrate_camera", VStr s)] (tt, tr))).
Proof.
  split; [reflexivity|].
  intros (d & b & Hret & _). discriminate Hret.
Qed.

End CommandProofs.

(* ================================================================== *)
(** * Further properties of the object point generator *)

Lemma object_points_of_grid (cols rows : Z) (rest : list Z) (s : F64.t) :
  0 <= cols -> 0 <= rows ->
  generate_object_points (cols :: rows :: rest) s
  = Return (map (fun g => map (fun x => F32.mul x (F32.of_f64 s))
                              (map F32.of_Z g ++ [F32.zero]))
                (index_grid (Z.to_nat cols) (Z.to_nat rows))).
Proof.
  intros Hc Hr. unfold generate_object_points. cbn [py_index nth_error obind].
  unfold Np.zeros. destruct (Z.ltb_spec (rows * cols) 0) as [H|_]; [nia|].
  cbn [obind]. rewrite mgrid_returns by assumption. cbn [obind].
  rewrite reshape_transpose_mgrid. cbn [obind].
  rewrite assign_cols2_zeros.
  - cbn [obind]. unfold Np.imul. now rewrite map_map.
  - unfold index_grid. rewrite segments_length, length_seq. nia.
Qed.

(** X4. For a pattern whose first two entries are non negative, zero
    included, and for any square size, [generate_object_points] returns
    [cols * rows] points of three coordinates each; with a zero dimension
    the result is the empty array and not an error. *)
Theorem object_points_for_any_non_negative_pattern
        (cols rows : Z) (rest : list Z) (s : F64.t) :
  0 <= cols -> 0 <= rows ->
  exists objp,
    generate_object_points (cols :: rows :: rest) s = Return objp /\
    Z.of_nat (length objp) = cols * rows /\
    (forall p, In p objp -> length p = 3%nat) /\
    (cols = 0 \/ rows = 0 -> objp = []).
Proof.
  intros Hc Hr. eexists. split; [now apply object_points_of_grid|].
  split; [|split].
  - rewrite length_map. unfold index_grid.
    rewrite segments_length, length_seq. nia.
  - intros p Hp. apply in_map_iff in Hp. destruct Hp as [g [<- Hg]].
    unfold index_grid in Hg. apply in_flat_map in Hg.
    destruct Hg as [j [_ Hg]]. apply in_map_iff in Hg.
    now destruct Hg as [i [<- _]].
  - intros Hzero.
    assert (Hlen : length (index_grid (Z.to_nat cols) (Z.to_nat rows)) = 0%nat).
    { unfold index_grid. rewrite segments_length, length_seq.
      destruct Hzero as [-> | ->]; cbn; lia. }
    destruct (index_grid _ _); [reflexivity|discriminate Hlen].
Qed.

(** X5. [generate_object_points] raises [IndexError] on a pattern with
    fewer than two entries and [ValueError] on a pattern one of whose first
    two entries is negative (numpy refuses the negative array size, or the
    negative size of the index grid); on every other pattern it returns an
    array. *)
Theorem object_points_errors (s : F64.t) :
  (forall pattern,
     (length pattern < 2)%nat ->
     exists msg,
       generate_object_points pattern s = Raise (mkExn IndexError msg)) /\
  (forall cols rows rest,
     cols < 0 \/ rows < 0 ->
     exists msg,
       generate_object_points (cols :: rows :: rest) s
       = Raise (mkExn ValueError msg)) /\
  (forall cols rows rest,
     0 <= cols -> 0 <= rows ->
     exists objp,
       generate_object_points (cols :: rows :: rest) s = Return objp).
Proof.
  split; [|split].
  - intros [|a [|b pattern]] Hlen; cbn in Hlen; try lia;
      eexists; reflexivity.
  - intros cols rows rest Hneg.
    unfold generate_object_points. cbn [py_index nth_error obind].
    unfold Np.zeros.
    destruct (Z.ltb_spec (rows * cols) 0) as [Hprod|Hprod];
      [eexists; reflexivity|].
    cbn [obind]. rewrite mgrid_raises by assumption.
    eexists. reflexivity.
  - intros cols rows rest Hc Hr. eexists.
    now apply object_points_of_grid.
Qed.

(* ================================================================== *)
(** * Further properties of the image decoder *)

Lemma after_comma_prefix (prefix rest : string) :
  no_comma prefix = true ->
  after_comma (prefix ++ String "," rest) = Some rest.
Proof.
  induction prefix as [|c prefix IH]; cbn; [reflexivity|].
  destruct (Ascii.eqb c ","); [discriminate|exact IH].
Qed.

Lemma after_comma_none (s : string) :
  no_comma s = true -> after_comma s = None.
Proof.
  induction s as [|c s IH]; cbn; [reflexivity|].
  destruct (Ascii.eqb c ","); [discriminate|exact IH].
Qed.

(** X6. A data URI prefix is dropped: when neither the prefix nor the
    payload holds a comma, decoding [prefix,payload] gives what decoding
    the bare payload gives, whatever that is (an image, [None] or an
    exception). *)
Theorem data_uri_prefix_is_ignored `{Extern} (prefix payload : string) :
  no_comma prefix = true ->
  no_comma payload = true ->
  decode_base64_image (VStr (prefix ++ String "," payload))
  = decode_base64_image (VStr payload).
Proof.
  intros Hprefix Hpayload. cbn [decode_base64_image].
  unfold decode_base64_str, strip_data_uri.
  now rewrite (after_comma_prefix _ _ Hprefix), (after_comma_none _ Hpayload).
Qed.

Lemma a2b_loop_discards (c : ascii) (s2 : string) :
  discarded c = true ->
  forall s1 quad_pos leftchar pads out,
    Base64.a2b_loop (s1 ++ String c s2) quad_pos leftchar pads out
    = Base64.a2b_loop (s1 ++ s2) quad_pos leftchar pads out.
Proof.
  unfold discarded. intros Hc.
  apply andb_prop in Hc. destruct Hc as [Hc Hpad].
  apply andb_prop in Hc. destruct Hc as [_ Htable].
  destruct (Base64.table_a2b c) eqn:Hc; [discriminate|].
  apply negb_true_iff in Hpad.
  induction s1 as [|d s1 IH]; intros quad_pos leftchar pads out.
  - cbn [String.append Base64.a2b_loop]. now rewrite Hpad, Hc.
  - cbn [String.append Base64.a2b_loop].
    destruct (Ascii.eqb d "=").
    + destruct (2 <=? quad_pos); [|apply IH].
      destruct (4 <=? quad_pos + (pads + 1)); [reflexivity|apply IH].
    + destruct (Base64.table_a2b d); [|apply IH].
      destruct (quad_pos =? 0); [apply IH|].
      destruct (quad_pos =? 1); [apply IH|].
      destruct (quad_pos =? 2); apply IH.
Qed.

Lemma all_ascii_insert (c : ascii) (s1 s2 : string) :
  Base64.is_ascii c = true ->
  Base64.all_ascii (s1 ++ String c s2) = Base64.all_ascii (s1 ++ s2).
Proof.
  intros Hc. induction s1 as [|d s1 IH];
    cbn [String.append Base64.all_ascii].
  - now rewrite Hc.
  - now rewrite IH.
Qed.

Lemma b64decode_discards (c : ascii) (s1 s2 : string) :
  discarded c = true ->
  Base64.b64decode (s1 ++ String c s2) = Base64.b64decode (s1 ++ s2).
Proof.
  intros Hc. unfold Base64.b64decode.
  rewrite all_ascii_insert, a2b_loop_discards by
    (try exact Hc; unfold discarded in Hc;
     now destruct (Base64.is_ascii c)).
  reflexivity.
Qed.

Lemma strip_data_uri_insert (c : ascii) (s1 s2 : string) :
  Ascii.eqb c "," = false ->
  (exists t1 t2,
      strip_data_uri (s1 ++ String c s2) = (t1 ++ String c t2)%string /\
      strip_data_uri (s1 ++ s2) = (t1 ++ t2)%string) \/
  strip_data_uri (s1 ++ String c s2) = strip_data_uri (s1 ++ s2).
Proof.
  intros Hc. unfold strip_data_uri.
  assert (Hafter :
            (exists t1 t2,
                after_comma (s1 ++ String c s2) = Some (t1 ++ String c t2)%string
                /\ after_comma (s1 ++ s2) = Some (t1 ++ t2)%string) \/
            (after_comma (s1 ++ String c s2) = after_comma s2 /\
             after_comma (s1 ++ s2) = after_comma s2)).
  { induction s1 as [|d s1 IH]; cbn [String.append after_comma].
    - right. now rewrite Hc.
    - destruct (Ascii.eqb d ","); [|exact IH].
      left. now exists s1, s2. }
  destruct Hafter as [(t1 & t2 & -> & ->)|[Ha Hb]].
  - left. now exists t1, t2.
  - rewrite Ha, Hb. destruct (after_comma s2).
    + now right.
    + left. now exists s1, s2.
Qed.

(** X7. Characters that base64 discards (white space, line breaks, any
    ASCII character outside the alphabet other than [=] and the comma) may
    stand anywhere in the input without changing what the decoder
    returns. *)
Theorem decoder_ignores_discarded_characters `{Extern}
        (c : ascii) (s1 s2 : string) :
  discarded c = true ->
  Ascii.eqb c "," = false ->
  decode_base64_image (VStr (s1 ++ String c s2))
  = decode_base64_image (VStr (s1 ++ s2)).
Proof.
  intros Hc Hcomma. cbn [decode_base64_image]. unfold decode_base64_str.
  destruct (strip_data_uri_insert c s1 s2 Hcomma)
    as [(t1 & t2 & -> & ->)| ->]; [|reflexivity].
  now rewrite (b64decode_discards c t1 t2 Hc).
Qed.

(** X8. An entry of the image list that is not a string never decodes:
    the decoder raises on it, and the batch loop skips it, leaving the
    accumulated points, the image size and the counter as they were. *)
Theorem non_string_entry_is_skipped `{Extern} (self : CameraCalibration)
        (x : value) :
  is_str x = false ->
  (exists e, decode_base64_image x = Raise e) /\
  forall n idx l tr,
  exists msg,
    process_image self n idx x (l, tr)
    = (Return tt, (l, tr ++ [Log WARNING msg])).
Proof.
  intros Hx.
  assert (Hraise : exists e, decode_base64_image x = Raise e).
  { destruct x as [| | | | s | l | d]; try discriminate Hx;
      cbn [decode_base64_image]; try (eexists; reflexivity).
    - destruct (existsb value_eqb_comma l); eexists; reflexivity.
    - destruct (existsb (String.eqb ",") (dict_keys d)); eexists; reflexivity. }
  split; [exact Hraise|]. destruct Hraise as [e He].
  intros n idx l tr. eexists.
  unfold process_image, try_except.
  rewrite (bind_raise _ _ _ e (l, tr)); [reflexivity|].
  now rewrite lift_run, He.
Qed.

(* ================================================================== *)
(** * Further properties of the batch calibration *)

Section CalibrationExtras.
Context `{Extern}.
Variable self : CameraCalibration.

Lemma detections_length_le (images : list value) :
(length (detections self images) <= length images)%nat.
Proof.
induction images as [|x images IH]; cbn [detections length]; [lia|].
destruct (detection self x); cbn [length]; lia.
Qed.

Lemma step_keeps_paired (l : calib_locals) (x : value) :
paired self l -> paired self (step_locals self l x).
Proof.
intros (Ho & Hi & Hgen). unfold step_locals.
destruct (decoded x) as [im|]; [|now repeat split].
destruct (detection self x) as [c|]; [|now repeat split].
destruct (generate_object_points (cc_pattern_size self)
                                 (cc_square_size self))
  as [objp|e] eqn:Hobjp.
- repeat split; cbn [object_points image_points successful_detections].
  + rewrite length_app. cbn. lia.
  + rewrite length_app. cbn. lia.
  + intros o Hin. apply in_app_or in Hin. destruct Hin as [Hin|[<-|[]]].
    * rewrite Hobjp. now apply Hgen.
    * exact Hobjp.
- repeat split; cbn [object_points image_points successful_detections];
    try assumption.
  intros o Hin. rewrite Hobjp. now apply Hgen.
Qed.

Lemma loop_keeps_paired (images : list value) :
forall l, paired self l ->
          paired self (fold_left (step_locals self) images l).
Proof.
induction images as [|x images IH]; intros l Hl; cbn [fold_left].
- exact Hl.
- apply IH. now apply step_keeps_paired.
Qed.

Lemma solve_and_score_keeps_locals (l : calib_locals) (tr : trace)
    (r : outcome dict) (s' : calib_locals * trace) :
solve_and_score (l, tr) = (r, s') -> fst s' = l.
Proof.
unfold solve_and_score, bind, lift, logger, emit, get_locals, ret.
cbn [fst snd].
destruct (calibrateCamera _ _ _ _ _ _)
  as [[[[[rms K] d] rvecs] tvecs]|e]; [|now intros [= <- <-]].
destruct (reprojection_loop _ _ _ _ _ _ _ _) as [mean|e];
  [|now intros [= <- <-]].
destruct (py_truediv mean _) as [err|e]; [|now intros [= <- <-]].
cbn [fst snd]. now intros [= <- <-].
Qed.

(** X9. However a batch run ends (a result, the insufficient data
  exception or a solver failure), its accumulators are paired: there are
  as many object point sets as corner sets and as counted detections,
  at most one per input, and every object point set is the one
  [generate_object_points] gives for the configured pattern. *)
Theorem accumulators_stay_paired
      (images : list value) (tr : trace) (r : outcome dict)
      (s' : calib_locals * trace) :
_calibrate_camera_from_images self images (calib_init, tr) = (r, s') ->
length (object_points (fst s')) = successful_detections (fst s') /\
length (image_points (fst s')) = successful_detections (fst s') /\
(successful_detections (fst s') <= length images)%nat /\
forall o, In o (object_points (fst s')) ->
          generate_object_points (cc_pattern_size self) (cc_square_size self)
          = Return o.
Proof.
intros Hrun.
destruct (calibrate_after_loop self images tr) as [logs [_ Heq]].
cbv zeta in Heq. rewrite Heq in Hrun. clear Heq.
assert (Hl : fst s' = fold_left (step_locals self) images calib_init).
{ destruct (successful_detections _ <? 3)%nat.
  - now injection Hrun as <- <-.
  - exact (solve_and_score_keeps_locals _ _ _ _ Hrun). }
rewrite Hl.
assert (Hinit : paired self calib_init) by (repeat split; intros o []).
destruct (loop_keeps_paired images calib_init Hinit) as (Ho & Hi & Hgen).
repeat split; try assumption.
pose proof (loop_count_le self images calib_init) as Hle.
pose proof (detections_length_le images). cbn in Hle. lia.
Qed.

Lemma solve_and_score_solver_raises (st : calib_locals * trace) (e : exn) :
calibrateCamera (object_points (fst st)) (image_points (fst st))
                (image_size (fst st))
                (repeat (repeat F32.zero 3) 3) (repeat F32.zero 5)
                cv2.CALIB_RATIONAL_MODEL
= Raise e ->
fst (solve_and_score st) = Raise e.
Proof.
intros Hsolver. destruct st as [l tr]. cbn [fst] in Hsolver.
unfold solve_and_score, bind, lift, logger, emit, get_locals, ret.
cbn [fst snd]. cbv zeta. now rewrite Hsolver.
Qed.

(** X10. A failure of the OpenCV solver is not fatal for the request:
  when at least three inputs were detected and [cv2.calibrateCamera]
  raises on the accumulated data, [do_command] returns the mapping
  [success: False] with the solver's message as [error]. *)
Theorem solver_failure_is_reported
      (images : list value) (tr : trace) (objp : ObjectPoints) (e : exn) :
generate_object_points (cc_pattern_size self) (cc_square_size self)
= Return objp ->
(3 <= length (detections self images))%nat ->
calibrateCamera (object_points (accumulated self objp images))
                (image_points (accumulated self objp images))
                (image_size (accumulated self objp images))
                (repeat (repeat F32.zero 3) 3) (repeat F32.zero 5)
                cv2.CALIB_RATIONAL_MODEL
= Raise e ->
fst (do_command self (calibrate_command images) (tt, tr))
= Return [("success", VBool false); ("error", VStr (exn_msg e))].
Proof.
intros Hgen Hn Hsolver.
assert (Hne : images <> []).
{ intros ->. cbn in Hn. lia. }
unfold calibrate_command. rewrite (do_command_images self images tr Hne).
destruct (calibrate_after_loop self images tr) as [logs [_ Heq]].
cbv zeta in Heq. rewrite (loop_result self objp images Hgen) in Heq.
change (successful_detections (accumulated self objp images))
  with (length (detections self images)) in Heq.
destruct (Nat.ltb_spec (length (detections self images)) 3) as [Hlt|_];
  [lia|].
unfold try_except, call. cbn [fst snd]. rewrite Heq.
match goal with
| |- context [solve_and_score ?st] =>
    pose proof (solve_and_score_solver_raises st e Hsolver) as Hs;
    revert Hs;
    destruct (solve_and_score st) as [r [l t]]
end.
cbn [fst]. now intros ->.
Qed.

(** X11. A response with [success] true always reports a number of images
  between three and the number of images sent. *)
Theorem success_reports_at_least_three_images
      (images : list value) (tr : trace) (d : dict) (s' : unit * trace) :
do_command self (calibrate_command images) (tt, tr) = (Return d, s') ->
dict_get d "success" = Some (VBool true) ->
exists n,
  dict_get d "num_images" = Some (VInt (Z.of_nat n)) /\
  (3 <= n <= length images)%nat.
Proof.
intros Hrun Hsuccess.
destruct images as [|x images].
{ cbn in Hrun. injection Hrun as <- <-. discriminate Hsuccess. }
unfold calibrate_command in Hrun.
rewrite (do_command_images self (x :: images) tr) in Hrun by discriminate.
unfold try_except, call in Hrun. cbn [fst snd] in Hrun.
destruct (_calibrate_camera_from_images self (x :: images) (calib_init, tr))
  as [[result|e] [l t]] eqn:Hcal.
- injection Hrun as <- <-.
  destruct (calibrate_success_inv self _ _ _ _ Hcal)
    as (objp & logs & rms & K & dd & rvecs & tvecs & mean & err & Hinv).
  cbv zeta in Hinv. destruct Hinv as (_ & _ & Hn & _ & _ & _ & Hfmt & _).
  destruct (format_result_fields _ _ _ _ _ _ Hfmt) as (_ & _ & _ & Hnum & _).
  exists (length (detections self (x :: images))).
  split; [exact Hnum|]. split; [exact Hn|apply detections_length_le].
- cbn in Hrun. injection Hrun as <- <-. discriminate Hsuccess.
Qed.

Lemma format_result_matrix_fields (rms err : F64.t) (l : calib_locals)
    (K : Matrix) (d : Vector) (result : dict) :
format_result rms err l K d = Return result ->
exists fx fy cx cy k1 k2 p1 p2 k3,
  mat_get K 0 0 = Return fx /\ mat_get K 1 1 = Return fy /\
  mat_get K 0 2 = Return cx /\ mat_get K 1 2 = Return cy /\
  firstn 5 d = [k1; k2; p1; p2; k3] /\
  dict_get result "camera_matrix"
  = Some (VDict [("fx", VFloat fx); ("fy", VFloat fy);
                 ("cx", VFloat cx); ("cy", VFloat cy)]) /\
  dict_get result "distortion_coefficients"
  = Some (VDict [("k1", VFloat k1); ("k2", VFloat k2); ("p1", VFloat p1);
                 ("p2", VFloat p2); ("k3", VFloat k3)]).
Proof.
unfold format_result.
destruct (image_size l) as [[w h]|]; [|discriminate]. cbn [obind].
destruct (mat_get K 0 0) as [fx|]; [|discriminate]. cbn [obind].
destruct (mat_get K 1 1) as [fy|]; [|discriminate]. cbn [obind].
destruct (mat_get K 0 2) as [cx|]; [|discriminate]. cbn [obind].
destruct (mat_get K 1 2) as [cy|]; [|discriminate]. cbn [obind].
destruct d as [|k1 [|k2 [|p1 [|p2 [|k3 d]]]]]; try discriminate.
cbn [py_index nth_error obind]. intros [= <-].
exists fx, fy, cx, cy, k1, k2, p1, p2, k3. repeat split; reflexivity.
Qed.

(** X12. In a successful result, [fx], [fy], [cx], [cy] are the entries
  (0,0), (1,1), (0,2), (1,2) of the camera matrix the solver returned,
  and [k1], [k2], [p1], [p2], [k3] are, in this order, the first five
  distortion coefficients it returned (later ones are dropped). *)
Theorem result_fields_come_from_solver
      (images : list value) (tr : trace) (result : dict)
      (s' : calib_locals * trace) :
_calibrate_camera_from_images self images (calib_init, tr)
= (Return result, s') ->
exists rms K d rvecs tvecs fx fy cx cy k1 k2 p1 p2 k3,
  calibrateCamera (object_points (fst s')) (image_points (fst s'))
                  (image_size (fst s'))
                  (repeat (repeat F32.zero 3) 3) (repeat F32.zero 5)
                  cv2.CALIB_RATIONAL_MODEL
  = Return (rms, K, d, rvecs, tvecs) /\
  mat_get K 0 0 = Return fx /\ mat_get K 1 1 = Return fy /\
  mat_get K 0 2 = Return cx /\ mat_get K 1 2 = Return cy /\
  firstn 5 d = [k1; k2; p1; p2; k3] /\
  dict_get result "camera_matrix"
  = Some (VDict [("fx", VFloat fx); ("fy", VFloat fy);
                 ("cx", VFloat cx); ("cy", VFloat cy)]) /\
  dict_get result "distortion_coefficients"
  = Some (VDict [("k1", VFloat k1); ("k2", VFloat k2); ("p1", VFloat p1);
                 ("p2", VFloat p2); ("k3", VFloat k3)]).
Proof.
intros Hrun.
destruct (calibrate_success_inv self images tr result s' Hrun)
  as (objp & logs & rms & K & d & rvecs & tvecs & mean & err & Hinv).
cbv zeta in Hinv.
destruct Hinv as (_ & _ & _ & Hcal & _ & _ & Hfmt & ->).
destruct (format_result_matrix_fields _ _ _ _ _ _ Hfmt)
  as (fx & fy & cx & cy & k1 & k2 & p1 & p2 & k3 & Hfields).
exists rms, K, d, rvecs, tvecs, fx, fy, cx, cy, k1, k2, p1, p2, k3.
split; [exact Hcal|exact Hfields].
Qed.

Lemma process_image_line (n idx : nat) (x : value) (l : calib_locals)
    (tr : trace) :
exists line,
  process_image self n idx x (l, tr)
  = (Return tt, (step_locals self l x, tr ++ [line])) /\
  ((is_accept_line line = true /\
    successful_detections (step_locals self l x)
    = S (successful_detections l)) \/
   (is_skip_line line = true /\
    successful_detections (step_locals self l x)
    = successful_detections l)).
Proof.
unfold process_image, step_locals, detection, decoded.
unfold try_except, bind, lift, logger, emit, get_locals, set_locals, ret.
destruct (decode_base64_image x) as [[im|]|e]; cbn [fst snd];
  try (eexists; split; [destruct l; reflexivity|right; split; reflexivity]).
destruct l as [ops ips [sz|] k]; cbn [image_size fst snd];
  destruct (shape_len im =? 3);
  destruct (detect_chessboard_corners im (cc_pattern_size self))
    as [[c|]|e1]; cbn [fst snd];
  try (eexists; split; [reflexivity|right; split; reflexivity]);
  destruct (generate_object_points _ _) as [objp|e2]; cbn [fst snd];
  eexists; (split; [reflexivity|]);
  first [ left; split; [reflexivity|cbn; lia]
        | right; split; reflexivity ].
Qed.

Lemma for_each_lines (n : nat) (images : list value) :
forall idx l tr,
exists lines,
  for_each (process_image self n) idx images (l, tr)
  = (Return tt, (fold_left (step_locals self) images l, tr ++ lines)) /\
  length lines = length images /\
  forallb is_image_line lines = true /\
  (length (filter is_accept_line lines) + successful_detections l
   = successful_detections (fold_left (step_locals self) images l))%nat.
Proof.
induction images as [|x images IH]; intros idx l tr.
- exists []. cbn. now rewrite app_nil_r.
- destruct (process_image_line n idx x l tr) as (line & Hx & Hkind).
  destruct (IH (S idx) (step_locals self l x) (tr ++ [line]))
    as (lines & Hrest & Hlen & Hall & Hcount).
  exists (line :: lines). cbn [for_each fold_left].
  rewrite (bind_return _ _ _ _ _ Hx).
  rewrite <- app_assoc in Hrest.
  split; [exact Hrest|]. split; [cbn; now rewrite Hlen|].
  unfold is_image_line in *. cbn [forallb filter].
  destruct Hkind as [[Hacc Hsucc]|[Hskip Hsucc]].
  + rewrite Hacc. cbn [orb andb length]. split; [exact Hall|lia].
  + rewrite Hskip, orb_true_r. cbn [andb].
    split; [exact Hall|].
    assert (Hno : is_accept_line line = false)
      by (destruct line as [[] []| | |]; try discriminate; reflexivity).
    rewrite Hno. lia.
Qed.

Lemma solve_and_score_extends_trace (st : calib_locals * trace)
    (r : outcome dict) (s' : calib_locals * trace) :
solve_and_score st = (r, s') -> exists rest, snd s' = snd st ++ rest.
Proof.
destruct st as [l tr].
unfold solve_and_score, bind, lift, logger, emit, get_locals, ret.
cbn [fst snd].
destruct (calibrateCamera _ _ _ _ _ _)
  as [[[[[rms K] d] rvecs] tvecs]|e];
  [|intros [= <- <-]; cbn [snd]; rewrite <- !app_assoc; eexists;
    reflexivity].
destruct (reprojection_loop _ _ _ _ _ _ _ _) as [mean|e];
  [|intros [= <- <-]; cbn [snd]; rewrite <- !app_assoc; eexists;
    reflexivity].
destruct (py_truediv mean _) as [err|e];
  [|intros [= <- <-]; cbn [snd]; rewrite <- !app_assoc; eexists;
    reflexivity].
cbn [fst snd]. intros [= <- <-]. cbn [snd]. rewrite <- !app_assoc.
eexists. reflexivity.
Qed.

(** X15. Every batch run accounts for each input in its log: after the
  start line come exactly as many lines as there are inputs, in input
  order, each either the line of an accepted image or a warning for a
  skipped one, and the number of accepted lines is the detection count
  the run ends with. *)
Theorem one_log_line_per_image
      (images : list value) (tr : trace) (r : outcome dict)
      (s' : calib_locals * trace) :
_calibrate_camera_from_images self images (calib_init, tr) = (r, s') ->
exists lines rest,
  snd s'
  = tr ++ Log INFO (MsgStartCalibration (length images)) :: lines ++ rest /\
  length lines = length images /\
  forallb is_image_line lines = true /\
  length (filter is_accept_line lines) = successful_detections (fst s').
Proof.
unfold _calibrate_camera_from_images.
rewrite (bind_return _ _ _ _ _ (logger_run _ _ _ _)).
destruct (for_each_lines (length images) images 0 calib_init
            (tr ++ [Log INFO (MsgStartCalibration (length images))]))
  as (lines & Hloop & Hlen & Hall & Hcount).
rewrite (bind_return _ _ _ _ _ Hloop).
rewrite (bind_return _ _ _ _ _ (get_locals_run _ _)).
cbn [successful_detections calib_init] in Hcount.
rewrite Nat.add_0_r in Hcount.
destruct (successful_detections _ <? 3)%nat.
- intros [= <- <-]. exists lines, []. cbn [fst snd].
  rewrite app_nil_r, <- app_assoc. repeat split; assumption.
- intros Hrun.
  pose proof (solve_and_score_keeps_locals _ _ _ _ Hrun) as Hl.
  destruct (solve_and_score_extends_trace _ _ _ Hrun) as [rest Hrest].
  exists lines, rest. cbn [snd] in Hrest.
  rewrite Hrest, Hl, <- !app_assoc. repeat split; assumption.
Qed.

End CalibrationExtras.

(* ================================================================== *)
(** * Further properties of the pose query *)

Section PoseExtras.
Context `{Extern}.
Variable self : Chessboard.

Lemma select_loop_result (first : NamedImage) (rest frames : list NamedImage) :
forall idx v tr,
  for_each (select_image (first :: rest)) idx frames (v, tr)
  = (Return tt,
     (match jpeg_frames frames with
      | [] => v
      | _ :: _ => Some (data first)
      end,
      tr ++ map (fun _ => found_image_line) (jpeg_frames frames))).
Proof.
induction frames as [|image frames IH]; intros idx v tr.
- cbn. now rewrite app_nil_r.
- cbn [for_each jpeg_frames filter]. unfold select_image at 1.
  fold (jpeg_frames frames).
  destruct (is_jpeg (mime_type image)).
  + erewrite bind_return; [|reflexivity]. rewrite IH.
    cbn [map]. rewrite <- app_assoc. cbn [app].
    now destruct (jpeg_frames frames).
  + erewrite bind_return; [|reflexivity]. now rewrite IH.
Qed.

(** X13. When the camera answers with no JPEG frame (an empty answer
  included), the pose query raises [UnboundLocalError] before anything
  is logged: the error message prepared for a missing image is not
  returned. *)
Theorem no_jpeg_frame_is_unbound
      (names : list string) (tr : trace) (frames : list NamedImage) :
get_images (camera self) = Return frames ->
jpeg_frames frames = [] ->
get_poses self names (tt, tr)
= (Raise (mkExn UnboundLocalError
            "cannot access local variable 'viam_image'"),
   (tt, tr)).
Proof.
intros Hframes Hnone. unfold get_poses, call, get_poses_body.
cbn [fst snd].
erewrite bind_return; [|rewrite lift_run, Hframes; reflexivity].
assert (Hloop : for_each (select_image frames) 0 frames (None, tr)
                = (Return tt, (None, tr))).
{ destruct frames as [|first rest]; [reflexivity|].
  rewrite select_loop_result, Hnone. cbn. now rewrite app_nil_r. }
rewrite (bind_return _ _ _ _ _ Hloop).
rewrite (bind_return _ _ _ _ _ (get_locals_run _ _)).
reflexivity.
Qed.

(** X14. When some frame of the camera's answer is JPEG, the bytes that
  are analysed are those of the first frame of the answer, whatever its
  own type, after one debug line per JPEG frame; when that first frame
  carries no bytes the query returns the missing image message. *)
Theorem first_frame_is_analysed
      (names : list string) (tr : trace)
      (first : NamedImage) (rest : list NamedImage) :
get_images (camera self) = Return (first :: rest) ->
jpeg_frames (first :: rest) <> [] ->
let found := map (fun _ => found_image_line) (jpeg_frames (first :: rest)) in
match data first with
| Some viam_image =>
    get_poses self names (tt, tr)
    = call (Some (Some viam_image)) (pose_from_image self viam_image)
           (tt, tr ++ found)
| None =>
    get_poses self names (tt, tr)
    = (Return (Some "Could not get latest image from camera", None),
       (tt, tr ++ found
               ++ [Log ERROR
                     (MsgText "Could not get latest image from camera")]))
end.
Proof.
intros Hframes Hsome found.
assert (Hrun : get_poses self names (tt, tr)
               = match data first with
                 | Some viam_image =>
                     call (Some (Some viam_image))
                          (pose_from_image self viam_image) (tt, tr ++ found)
                 | None =>
                     (Return (Some "Could not get latest image from camera",
                              None),
                      (tt, tr ++ found
                              ++ [Log ERROR
                                    (MsgText
                                       "Could not get latest image from camera")]))
                 end).
{ unfold get_poses, get_poses_body. unfold call at 1. cbn [fst snd].
  erewrite bind_return; [|rewrite lift_run, Hframes; reflexivity].
  rewrite (bind_return _ _ _ _ _ (select_loop_result first rest _ 0 None tr)).
  rewrite (bind_return _ _ _ _ _ (get_locals_run _ _)).
  fold found. destruct (jpeg_frames (first :: rest)) as [|j js] eqn:Hj;
    [contradiction|].
  destruct (data first) as [viam_image|].
  - unfold call. cbn [fst snd]. reflexivity.
  - cbn. now rewrite <- app_assoc. }
destruct (data first); exact Hrun.
Qed.



End PoseExtras.

(* ================================================================== *)
(** * Configuration *)

(** ** Integers through binary64 *)

Lemma digits2_size (p : positive) : digits2_pos p = Pos.size p.
Proof. induction p; cbn; now rewrite ?IHp. Qed.

Lemma digits2_bounds (p : positive) :
  2 ^ (Z.pos (digits2_pos p) - 1) <= Z.pos p < 2 ^ Z.pos (digits2_pos p).
Proof.
  rewrite digits2_size. split.
  - pose proof (Pos.size_le p) as H.
    assert (Hz : Z.pos (2 ^ Pos.size p) <= Z.pos p~0) by exact H.
    rewrite Pos2Z.inj_pow in Hz.
    replace (Z.pos (Pos.size p)) with (Z.succ (Z.pos (Pos.size p) - 1)) in Hz by lia.
    rewrite Z.pow_succ_r in Hz by lia. lia.
  - pose proof (Pos.size_gt p) as H.
    assert (Hz : Z.pos p < Z.pos (2 ^ Pos.size p)) by exact H.
    now rewrite Pos2Z.inj_pow in Hz.
Qed.

Lemma iter_xO_value (p k : positive) :
  Z.pos (Pos.iter xO p k) = Z.pos p * 2 ^ Z.pos k.
Proof.
  induction k as [|k IH] using Pos.peano_ind.
  - cbn. lia.
  - rewrite Pos.iter_succ, Pos2Z.inj_xO, IH, Pos2Z.inj_succ, Z.pow_succ_r by lia.
    lia.
Qed.

Lemma iter_xO_digits (p k : positive) :
  digits2_pos (Pos.iter xO p k) = (digits2_pos p + k)%positive.
Proof.
  induction k as [|k IH] using Pos.peano_ind.
  - cbn. lia.
  - rewrite Pos.iter_succ. cbn [digits2_pos]. rewrite IH. lia.
Qed.

Lemma round_exact (s : bool) (m : positive) (e : Z) :
  digits2_pos m = 53%positive -> -52 <= e <= 0 ->
  binary_round_aux 53 1024 s (Z.pos m) e loc_Exact = S754_finite s m e.
Proof.
  intros Hd He. unfold binary_round_aux, shr_fexp, fexp, emin.
  cbn [shr_record_of_loc Zdigits2]. rewrite Hd.
  replace (Z.max (53 + e - 53) (3 - 1024 - 53) - e) with 0 by lia.
  cbn [shr shr_m loc_of_shr_record round_nearest_even shr_r shr_s Zdigits2].
  rewrite Hd.
  replace (Z.max (53 + e - 53) (3 - 1024 - 53) - e) with 0 by lia.
  cbn [shr shr_m].
  destruct (Z.leb_spec e (1024 - 53)); [reflexivity|lia].
Qed.

Lemma binary_round_of_integer (s : bool) (p : positive) :
  Z.pos p < 2 ^ 53 ->
  exists m e,
    binary_round 53 1024 s p 0 = S754_finite s m e /\
    -52 <= e <= 0 /\ Z.pos m = Z.pos p * 2 ^ (- e).
Proof.
  intros Hp. pose proof (digits2_bounds p) as [Hlo Hhi].
  assert (Hd : Z.pos (digits2_pos p) <= 53).
  { destruct (Z.le_gt_cases (Z.pos (digits2_pos p)) 53) as [|Hgt]; [assumption|].
    assert (2 ^ 53 <= 2 ^ (Z.pos (digits2_pos p) - 1))
      by (apply Z.pow_le_mono_r; lia). lia. }
  unfold binary_round, fexp, emin.
  replace (Z.max (Z.pos (digits2_pos p) + 0 - 53) (3 - 1024 - 53))
    with (Z.pos (digits2_pos p) - 53) by lia.
  unfold shl_align.
  destruct (Z.pos (digits2_pos p) - 53 - 0) as [|k|k] eqn:Hk; try lia.
  - exists p, 0. rewrite round_exact by (lia || (apply Pos2Z.inj; lia)).
    replace (Z.pos (digits2_pos p) - 53) with 0 by lia.
    repeat split; try lia. 
  - exists (Pos.iter xO p k), (Z.pos (digits2_pos p) - 53).
    rewrite round_exact.
    + repeat split; try lia. rewrite iter_xO_value. f_equal. f_equal. lia.
    + rewrite iter_xO_digits. lia.
    + lia.
Qed.

Lemma int_of_float_of_Z (n : Z) :
  - 2 ^ 53 < n < 2 ^ 53 ->
  int_of_float (F64.of_Z n) = PyReturn n.
Proof.
  intros Hn. unfold F64.of_Z, binary_normalize.
  assert (Hint : forall s p,
             Z.pos p < 2 ^ 53 ->
             int_of_float (binary_round F64.prec F64.emax s p 0)
             = PyReturn (if s then - Z.pos p else Z.pos p)).
  { intros s p Hp.
    destruct (binary_round_of_integer s p Hp) as (m & e & Hround & He & Hm).
    unfold F64.prec, F64.emax. rewrite Hround. unfold int_of_float.
    assert (Hmag : (if 0 <=? e then Z.pos m * 2 ^ e else Z.pos m / 2 ^ (- e))
                   = Z.pos p).
    { destruct (Z.leb_spec 0 e).
      - assert (e = 0) as -> by lia. rewrite Hm. cbn. lia.
      - rewrite Hm. apply Z.div_mul. apply Z.pow_nonzero; lia. }
    now rewrite Hmag. }
  destruct n as [|p|p].
  - reflexivity.
  - apply (Hint false). lia.
  - apply (Hint true). lia.
Qed.

(** ** The two validators and [reconfigure] *)

(** X16. The pose tracker's [validate_config] accepts a configuration
    exactly when [camera_name] is present and not null and the calibration
    service's [validate_config] accepts it; it then requires one
    dependency, the camera name, where the calibration service requires
    none. *)
Theorem validators_agree (py_repr : value -> string) (attrs : dict) :
  (CameraCalibrationConfig.validate_config attrs = Return ([], [])
   <-> calibration_attributes_present attrs = true) /\
  ((exists deps, ChessboardConfig.validate_config py_repr attrs = Return deps)
   <-> is_none (attrs_get attrs "camera_name") = false /\
       CameraCalibrationConfig.validate_config attrs = Return ([], [])) /\
  (forall deps,
     ChessboardConfig.validate_config py_repr attrs = Return deps ->
     deps = ([ChessboardConfig.py_str py_repr (attrs_get attrs "camera_name")],
             [])).
Proof.
  unfold CameraCalibrationConfig.validate_config,
    ChessboardConfig.validate_config, calibration_attributes_present,
    CameraCalibrationConfig.PATTERN_ATTR, CameraCalibrationConfig.SQUARE_ATTR,
    ChessboardConfig.cam_attr, ChessboardConfig.pattern_attr,
    ChessboardConfig.square_attr.
  destruct (is_none (attrs_get attrs "camera_name"));
    destruct (is_none (attrs_get attrs "pattern_size"));
    destruct (is_none (attrs_get attrs "square_size_mm"));
    cbn [negb andb]; repeat split; intros;
    repeat match goal with
           | Hx : exists _, _ |- _ => destruct Hx
           | Hx : _ /\ _ |- _ => destruct Hx
           end;
    try discriminate; try reflexivity; try congruence;
    try (eexists; reflexivity).
Qed.

(** X17. [validate_config] does not look at the type of [pattern_size]:
    a configuration whose pattern is a number or a boolean is accepted,
    and [reconfigure] then raises [TypeError] on it, leaving the stored
    pattern and square size as they were. *)
Theorem scalar_pattern_passes_validation_only
        (int_of_str : string -> py_result Z) (super : py_result unit)
        (self : CameraCalibrationConfig.attributes) (attrs : dict) :
  is_scalar (attrs_get attrs "pattern_size") = true ->
  is_none (attrs_get attrs "square_size_mm") = false ->
  CameraCalibrationConfig.validate_config attrs = Return ([], []) /\
  CameraCalibrationConfig.reconfigure int_of_str super self attrs
  = (PyRaise not_iterable, self).
Proof.
  intros Hscalar Hsquare.
  unfold CameraCalibrationConfig.validate_config,
    CameraCalibrationConfig.reconfigure,
    CameraCalibrationConfig.PATTERN_ATTR, CameraCalibrationConfig.SQUARE_ATTR.
  rewrite Hsquare.
  destruct (attrs_get attrs "pattern_size"); try discriminate Hscalar;
    split; reflexivity.
Qed.

Lemma ints_of_integers (int_of_str : string -> py_result Z) (ns : list Z) :
  Forall (fun n => - 2 ^ 53 < n < 2 ^ 53) ns ->
  CameraCalibrationConfig.ints int_of_str
    (map (fun n => VFloat (F64.of_Z n)) ns)
  = PyReturn ns.
Proof.
  induction 1 as [|n ns Hn _ IH]; [reflexivity|].
  cbn [map CameraCalibrationConfig.ints CameraCalibrationConfig.py_int].
  now rewrite (int_of_float_of_Z n Hn), IH.
Qed.

(** X18. Integers survive the configuration: when [pattern_size] is a
    list of integers sent as floats, each of magnitude below 2^53,
    [reconfigure] stores exactly those integers, together with the square
    size as sent; when the square size is a float this is the service the
    batch calibration runs on. *)
Theorem reconfigure_stores_integer_pattern
        (int_of_str : string -> py_result Z) (super : py_result unit)
        (self : CameraCalibrationConfig.attributes) (attrs : dict)
        (ns : list Z) :
  attrs_get attrs "pattern_size" = VList (map (fun n => VFloat (F64.of_Z n)) ns) ->
  Forall (fun n => - 2 ^ 53 < n < 2 ^ 53) ns ->
  CameraCalibrationConfig.reconfigure int_of_str super self attrs
  = (super,
     CameraCalibrationConfig.mkAttributes
       ns (attrs_get attrs "square_size_mm")) /\
  forall f,
    attrs_get attrs "square_size_mm" = VFloat f ->
    CameraCalibrationConfig.service_of
      (snd (CameraCalibrationConfig.reconfigure int_of_str super self attrs))
    = Some (mkCalibration ns f).
Proof.
  intros Hpattern Hns.
  assert (Hrun : CameraCalibrationConfig.reconfigure int_of_str super self attrs
                 = (super,
                    CameraCalibrationConfig.mkAttributes
                      ns (attrs_get attrs "square_size_mm"))).
  { unfold CameraCalibrationConfig.reconfigure,
      CameraCalibrationConfig.PATTERN_ATTR, CameraCalibrationConfig.SQUARE_ATTR.
    rewrite Hpattern. cbn [CameraCalibrationConfig.py_iter].
    now rewrite (ints_of_integers int_of_str ns Hns). }
  split; [exact Hrun|]. intros f Hf. rewrite Hrun.
  unfold CameraCalibrationConfig.service_of.
  cbn [snd CameraCalibrationConfig.attr_square_size
       CameraCalibrationConfig.attr_pattern_size].
  now rewrite Hf.
Qed.

(* ================================================================== *)
(** * Batch calibration on concrete inputs *)

#[local] Existing Instance Toy.cv.

Lemma insufficient_data_fails_before_solver_witness :
  let images := [Toy.small_blank; Toy.large_board; Toy.corrupt] in
  (length (detections Toy.service images) < 3)%nat /\
  exists found l' logs,
    (found < 3)%nat /\
    _calibrate_camera_from_images Toy.service images (calib_init, [])
    = (Raise (mkExn PlainException (insufficient_msg found (length images))),
       (l', [] ++ logs)) /\
    existsb is_solver_call logs = false /\
    (images <> [] ->
     fst (do_command Toy.service
            [("calibrate_camera", VDict [("images", VList images)])] (tt, []))
     = Return [ ("success", VBool false);
                ("error", VStr (insufficient_msg found (length images))) ]).
Proof.
  intros images.
  assert (Hfew : (length (detections Toy.service images) < 3)%nat)
    by (vm_compute; lia).
  split; [exact Hfew|].
  exact (insufficient_data_fails_before_solver Toy.service images [] Hfew).
Defined.

Lemma five_inputs_one_corrupt :
  exists result s',
    _calibrate_camera_from_images Toy.service
                                  Toy.five_inputs (calib_init, [])
    = (Return result, s') /\
    dict_get result "success" = Some (VBool true) /\
    dict_get result "num_images" = Some (VInt 4) /\
    length (object_points (fst s')) = 4%nat.
Proof.
  do 2 eexists. split; [vm_compute; reflexivity|].
  repeat split; reflexivity.
Qed.

Lemma partial_failure_is_tolerated_witness :
  (3 <= length (detections Toy.service Toy.five_inputs))%nat /\
  length Toy.five_inputs = 5%nat /\
  length (detections Toy.service Toy.five_inputs) = 4%nat /\
  fst (_calibrate_camera_from_images Toy.service Toy.five_inputs
                                     (calib_init, []))
  = Return five_inputs_result /\
  fst (do_command Toy.service
         [("calibrate_camera", VDict [("images", VList Toy.five_inputs)])]
         (tt, []))
  = Return five_inputs_result.
Proof.
  assert (Hn : (3 <= length (detections Toy.service Toy.five_inputs))%nat)
    by (vm_compute; lia).
  destruct (partial_failure_is_tolerated Toy.service Toy.five_inputs [] 3 2
              eq_refl ltac:(lia) ltac:(lia) Hn)
    as (objp & w & h & Hgen & Hsize & Hrun).
  assert (Hobjp : Return objp = Return Toy.objp)
    by (rewrite <- Hgen; vm_compute; reflexivity).
  injection Hobjp as ->.
  assert (Hwh : Some (w, h) = Some (1280, 720))
    by (rewrite <- Hsize; vm_compute; reflexivity).
  injection Hwh as -> ->.
  split; [exact Hn|]. split; [reflexivity|].
  split; [vm_compute; reflexivity|].
  apply (Hrun (decimal 25 2)
              [[Toy.f 800; Toy.f 0; Toy.f 320];
               [Toy.f 0; Toy.f 800; Toy.f 240];
               [Toy.f 0; Toy.f 0; Toy.f 1]]
              (repeat F64.zero 8)
              (repeat [F64.zero; F64.zero; F64.zero] 4)
              (repeat [F64.zero; F64.zero; Toy.f 1] 4)
              (F64.of_Z 1) (Toy.f 800) (Toy.f 800) (Toy.f 320) (Toy.f 240)
              F64.zero F64.zero F64.zero F64.zero F64.zero);
    vm_compute; reflexivity.
Defined.

Lemma reprojection_error_is_mean_over_views_witness :
  exists result s',
    _calibrate_camera_from_images Toy.service Toy.five_inputs (calib_init, [])
    = (Return result, s') /\
    dict_get result "reprojection_error" = Some (VFloat (F64.of_Z 1)) /\
    exists rms K d rvecs tvecs err,
      let l := fst s' in
      let views := views_of (object_points l) (image_points l) rvecs tvecs in
      image_points l = detections Toy.service Toy.five_inputs /\
      calibrateCamera (object_points l) (image_points l) (image_size l)
                      (repeat (repeat F32.zero 3) 3) (repeat F32.zero 5)
                      cv2.CALIB_RATIONAL_MODEL
      = Return (rms, K, d, rvecs, tvecs) /\
      length views = length (detections Toy.service Toy.five_inputs) /\
      mean_reprojection_error_spec K d views = Return err /\
      dict_get result "reprojection_error" = Some (VFloat err) /\
      dict_get result "rms_error" = Some (VFloat rms).
Proof.
  do 2 eexists.
  assert (Hrun : _calibrate_camera_from_images Toy.service Toy.five_inputs
                   (calib_init, []) = (Return ?[result], ?[s']))
    by (vm_compute; reflexivity).
  split; [exact Hrun|]. split; [vm_compute; reflexivity|].
  exact (reprojection_error_is_mean_over_views Toy.service Toy.five_inputs []
           _ _ Hrun).
Defined.

(** C7, as stated, fails: the run reports 640 x 480, the size of an input
    in which nothing was detected, while the first input with a successful
    detection is 1280 x 720. *)
Lemma size_is_not_that_of_first_detection :
  first_detected_size Toy.service Toy.blank_then_boards = Some (1280, 720) /\
  (exists result s',
     _calibrate_camera_from_images Toy.service Toy.blank_then_boards
                                   (calib_init, [])
     = (Return result, s') /\
     dict_get result "image_size"
     = Some (VDict [("width", VInt 640); ("height", VInt 480)])) /\
  (size_of_first_detection Toy.service Toy.blank_then_boards -> False).
Proof.
  assert (Hfirst : first_detected_size Toy.service Toy.blank_then_boards
                   = Some (1280, 720)) by (vm_compute; reflexivity).
  assert (Hrun : exists result s',
             _calibrate_camera_from_images Toy.service Toy.blank_then_boards
                                           (calib_init, [])
             = (Return result, s') /\
             dict_get result "image_size"
             = Some (VDict [("width", VInt 640); ("height", VInt 480)])).
  { do 2 eexists. split; [vm_compute; reflexivity|reflexivity]. }
  split; [exact Hfirst|]. split; [exact Hrun|].
  intros Hclaim. destruct Hrun as (result & s' & Hrun & Hsize).
  destruct (Hclaim [] result s' Hrun) as (w & h & Hfirst' & Hsize').
  rewrite Hfirst in Hfirst'. injection Hfirst' as <- <-.
  rewrite Hsize in Hsize'. discriminate Hsize'.
Qed.

Lemma image_size_is_first_decoded_witness :
  exists result s',
    _calibrate_camera_from_images Toy.service Toy.blank_then_boards
                                  (calib_init, [])
    = (Return result, s') /\
    exists w h objs imgs before after,
      first_decoded_size Toy.blank_then_boards = Some (w, h) /\
      dict_get result "image_size"
      = Some (VDict [("width", VInt w); ("height", VInt h)]) /\
      snd s'
      = [] ++ before ++ CallCalibrateCamera objs imgs (Some (w, h)) :: after /\
      forallb is_log before = true /\
      forallb is_log after = true.
Proof.
  do 2 eexists.
  assert (Hrun : _calibrate_camera_from_images Toy.service Toy.blank_then_boards
                   (calib_init, []) = (Return ?[result], ?[s']))
    by (vm_compute; reflexivity).
  split; [exact Hrun|].
  exact (image_size_is_first_decoded Toy.service Toy.blank_then_boards [] _ _ Hrun).
Defined.

(** ** The image decoder on concrete inputs *)

(** C9, as stated, fails: on the incorrectly padded string [abc] the
    decoder raises and does not return the decode failure value. *)
Lemma malformed_base64_is_raised :
  malformed_base64 "abc" /\
  decode_base64_image (VStr "abc")
  = Raise (mkExn BinasciiError "Incorrect padding") /\
  (decode_failure_on_malformed "abc" -> False).
Proof.
  assert (Hbad : malformed_base64 "abc")
    by (eexists; vm_compute; reflexivity).
  assert (Hdec : decode_base64_image (VStr "abc")
                 = Raise (mkExn BinasciiError "Incorrect padding"))
    by (vm_compute; reflexivity).
  split; [exact Hbad|]. split; [exact Hdec|].
  intros Hclaim. specialize (Hclaim Hbad).
  rewrite Hdec in Hclaim. discriminate Hclaim.
Qed.

Lemma decoder_raises_or_returns_none_witness :
  let e := mkExn BinasciiError "Incorrect padding" in
  (Base64.b64decode (strip_data_uri "abc") = Raise e /\
   decode_base64_image (VStr "abc") = Raise e /\
   forall n idx l tr,
     process_image Toy.service n idx (VStr "abc") (l, tr)
     = (Return tt, (l, tr ++ [Log WARNING (MsgImageError (idx + 1) e)]))) /\
  (Base64.b64decode (strip_data_uri "AAAA") = Return [0; 0; 0] /\
   imdecode [0; 0; 0] cv2.IMREAD_COLOR = Return None /\
   decode_base64_image (VStr "AAAA") = Return None).
Proof.
  intros e. split.
  - split; [reflexivity|].
    exact (proj1 (decoder_raises_or_returns_none Toy.service "abc") e
                 eq_refl).
  - split; [reflexivity|]. split; [reflexivity|].
    exact (proj2 (decoder_raises_or_returns_none Toy.service "AAAA")
                 [0; 0; 0] eq_refl eq_refl).
Defined.

(* ================================================================== *)
(** * Pose queries on concrete inputs *)

(** C5 at the input on which the code departs from it: the camera
    delivers a JPEG frame that shows the pattern and [solvePnP] reports
    failure.  The query returns neither a pose nor an error message. *)
Theorem pnp_failure_returns_no_error_message :
  fst (get_poses (H := Toy.cv_no_pnp) (Toy.board [Toy.jpeg_board]) []
                 (tt, []))
  = Return (None, None)
  /\ ~ pose_or_error
         (fst (get_poses (H := Toy.cv_no_pnp) (Toy.board [Toy.jpeg_board]) []
                         (tt, []))).
Proof.
  assert (Hrun : fst (get_poses (H := Toy.cv_no_pnp)
                                (Toy.board [Toy.jpeg_board]) [] (tt, []))
                 = Return (None, None))
    by (vm_compute; reflexivity).
  split; [exact Hrun|]. rewrite Hrun.
  intros [[p Hp]|[err Herr]]; discriminate.
Qed.

(** When the camera delivers no JPEG frame the local variable
    [viam_image] is never bound and the query raises. *)
Lemma no_jpeg_frame_raises :
  fst (get_poses (Toy.board [Toy.png_board]) [] (tt, []))
  = Raise (mkExn UnboundLocalError
             "cannot access local variable 'viam_image'").
Proof. vm_compute; reflexivity. Qed.

(** A frame without the pattern is answered by an error message and no
    pose. *)
Lemma blank_frame_is_an_error :
  fst (get_poses (Toy.board [Toy.jpeg_blank]) [] (tt, []))
  = Return (Some "Could not find chessboard pattern in image", None).
Proof. vm_compute; reflexivity. Qed.

(** C6 at the input on which the code departs from it: the camera
    delivers a JPEG frame that shows the pattern and [solvePnP] reports
    success.  The three coordinates handed to [Pose] are the one entry
    rows of [tvec.reshape(3, 1) * 1000], arrays and not numbers, so the
    constructor raises [TypeError] and no pose is reported; this is so for
    every camera, configuration and answer of OpenCV. *)
Theorem successful_solve_reports_no_pose :
  In (Log DEBUG (MsgText "Solved PnP"))
     (snd (snd (get_poses (Toy.board [Toy.jpeg_board]) [] (tt, [])))) /\
  fst (get_poses (Toy.board [Toy.jpeg_board]) [] (tt, []))
  = Raise (mkExn TypeError
             "has type numpy.ndarray, but expected one of: int, float") /\
  (forall (cv : Extern) (self : Chessboard) (names : list string)
          (st : unit * trace),
     ~ reports_pose (fst (get_poses (H := cv) self names st))).
Proof.
  split; [vm_compute; tauto|]. split; [vm_compute; reflexivity|].
  intros cv self names st.
  exact (get_poses_reports_no_pose (H := cv) self names st).
Qed.


(* ================================================================== *)
(** * Commands on concrete inputs *)

Lemma do_command_unsupported_witness :
  dict_get apostrophe_command "calibrate_camera" = None /\
  do_command Toy.service apostrophe_command (tt, [])
  = (Raise (mkExn NotImplementedError apostrophe_message),
     (tt, [Log ERROR (MsgUnknownCommand ["it's"])])).
Proof.
  split; [reflexivity|].
  exact (proj1 (do_command_unsupported Toy.service apostrophe_command [])
               eq_refl).
Defined.

Lemma do_command_structured_witness :
  structured_response
    (fst (do_command Toy.service
            [("calibrate_camera", VDict [("images", VList Toy.five_inputs)])]
            (tt, []))).
Proof.
  apply (do_command_structured Toy.service _
           (VDict [("images", VList Toy.five_inputs)]) []);
    [reflexivity | right; eexists; reflexivity].
Defined.

Lemma get_poses_returns_witness :
  exists s',
    get_poses (H := Toy.cv_no_pnp) (Toy.board [Toy.jpeg_board]) [] (tt, [])
    = (Return (None, None), s') /\
    ((exists p, @None string = Some "pose" /\ @None PoseInFrame = Some p) \/
     (exists err, @None string = Some err /\ @None PoseInFrame = None) \/
     (@None string = None /\ @None PoseInFrame = None /\
      In (Stdout "Could not solve PnP for chessboard") (snd s'))).
Proof.
  eexists.
  assert (Hrun : get_poses (H := Toy.cv_no_pnp) (Toy.board [Toy.jpeg_board])
                           [] (tt, [])
                 = (Return (None, None), ?[s'])) by (vm_compute; reflexivity).
  split; [exact Hrun|].
  exact (get_poses_returns (H := Toy.cv_no_pnp) (Toy.board [Toy.jpeg_board])
                           [] _ _ _ Hrun).
Defined.

(* ================================================================== *)
(** * The further properties on concrete inputs *)

Lemma object_points_for_any_non_negative_pattern_witness :
  0 <= 3 /\ 0 <= 0 /\
  exists objp,
    generate_object_points [3; 0] Toy.half = Return objp /\
    Z.of_nat (length objp) = 3 * 0 /\
    (forall p, In p objp -> length p = 3%nat) /\
    (3 = 0 \/ 0 = 0 -> objp = []).
Proof.
  split; [lia|]. split; [lia|].
  apply (object_points_for_any_non_negative_pattern 3 0 [] Toy.half); lia.
Defined.

Lemma data_uri_prefix_is_ignored_witness :
  no_comma "data:image/png;base64" = true /\
  no_comma "AQEB" = true /\
  decode_base64_image (VStr ("data:image/png;base64" ++ String "," "AQEB"))
  = decode_base64_image (VStr "AQEB").
Proof.
  split; [reflexivity|]. split; [reflexivity|].
  apply (data_uri_prefix_is_ignored "data:image/png;base64" "AQEB");
    reflexivity.
Defined.

Lemma decoder_ignores_discarded_characters_witness :
  discarded " " = true /\
  Ascii.eqb " " "," = false /\
  decode_base64_image (VStr ("AQ" ++ String " " "EB"))
  = decode_base64_image (VStr ("AQ" ++ "EB")).
Proof.
  split; [reflexivity|]. split; [reflexivity|].
  apply (decoder_ignores_discarded_characters " " "AQ" "EB"); reflexivity.
Defined.

Lemma non_string_entry_is_skipped_witness :
  is_str (VInt 5) = false /\
  (exists e, decode_base64_image (VInt 5) = Raise e) /\
  forall n idx l tr,
  exists msg,
    process_image Toy.service n idx (VInt 5) (l, tr)
    = (Return tt, (l, tr ++ [Log WARNING msg])).
Proof.
  split; [reflexivity|].
  apply (non_string_entry_is_skipped Toy.service (VInt 5)); reflexivity.
Defined.

Lemma accumulators_stay_paired_witness :
  exists r s',
    _calibrate_camera_from_images Toy.service Toy.five_inputs (calib_init, [])
    = (r, s') /\
    length (object_points (fst s')) = successful_detections (fst s') /\
    length (image_points (fst s')) = successful_detections (fst s') /\
    (successful_detections (fst s') <= length Toy.five_inputs)%nat /\
    forall o, In o (object_points (fst s')) ->
              generate_object_points (cc_pattern_size Toy.service)
                                     (cc_square_size Toy.service)
              = Return o.
Proof.
  do 2 eexists. split; [apply surjective_pairing|].
  exact (accumulators_stay_paired Toy.service Toy.five_inputs [] _ _
           (surjective_pairing _)).
Defined.

Lemma solver_failure_is_reported_witness :
  generate_object_points (cc_pattern_size Toy.service)
                         (cc_square_size Toy.service)
  = Return Toy.objp /\
  (3 <= length (detections (H := solver_refuses) Toy.service
                           Toy.five_inputs))%nat /\
  fst (do_command (H := solver_refuses) Toy.service
                  (calibrate_command Toy.five_inputs) (tt, []))
  = Return [("success", VBool false);
            ("error", VStr "(-215:Assertion failed) nimages > 0")].
Proof.
  assert (Hgen : generate_object_points (cc_pattern_size Toy.service)
                                        (cc_square_size Toy.service)
                 = Return Toy.objp) by (vm_compute; reflexivity).
  assert (Hn : (3 <= length (detections (H := solver_refuses) Toy.service
                                        Toy.five_inputs))%nat)
    by (vm_compute; lia).
  split; [exact Hgen|]. split; [exact Hn|].
  exact (solver_failure_is_reported (H := solver_refuses) Toy.service
           Toy.five_inputs [] Toy.objp
           (mkExn Cv2Error "(-215:Assertion failed) nimages > 0")
           Hgen Hn eq_refl).
Defined.

Lemma success_reports_at_least_three_images_witness :
  exists d s',
    do_command Toy.service (calibrate_command Toy.five_inputs) (tt, [])
    = (Return d, s') /\
    dict_get d "success" = Some (VBool true) /\
    exists n,
      dict_get d "num_images" = Some (VInt (Z.of_nat n)) /\
      (3 <= n <= length Toy.five_inputs)%nat.
Proof.
  do 2 eexists.
  assert (Hrun : do_command Toy.service (calibrate_command Toy.five_inputs)
                            (tt, [])
                 = (Return ?[d], ?[s'])) by (vm_compute; reflexivity).
  split; [exact Hrun|]. split; [reflexivity|].
  exact (success_reports_at_least_three_images Toy.service Toy.five_inputs []
           _ _ Hrun eq_refl).
Defined.

Lemma result_fields_come_from_solver_witness :
  exists result s',
    _calibrate_camera_from_images Toy.service Toy.five_inputs (calib_init, [])
    = (Return result, s') /\
    exists rms K d rvecs tvecs fx fy cx cy k1 k2 p1 p2 k3,
      calibrateCamera (object_points (fst s')) (image_points (fst s'))
                      (image_size (fst s'))
                      (repeat (repeat F32.zero 3) 3) (repeat F32.zero 5)
                      cv2.CALIB_RATIONAL_MODEL
      = Return (rms, K, d, rvecs, tvecs) /\
      mat_get K 0 0 = Return fx /\ mat_get K 1 1 = Return fy /\
      mat_get K 0 2 = Return cx /\ mat_get K 1 2 = Return cy /\
      firstn 5 d = [k1; k2; p1; p2; k3] /\
      dict_get result "camera_matrix"
      = Some (VDict [("fx", VFloat fx); ("fy", VFloat fy);
                     ("cx", VFloat cx); ("cy", VFloat cy)]) /\
      dict_get result "distortion_coefficients"
      = Some (VDict [("k1", VFloat k1); ("k2", VFloat k2); ("p1", VFloat p1);
                     ("p2", VFloat p2); ("k3", VFloat k3)]).
Proof.
  do 2 eexists.
  assert (Hrun : _calibrate_camera_from_images Toy.service Toy.five_inputs
                   (calib_init, []) = (Return ?[result], ?[s']))
    by (vm_compute; reflexivity).
  split; [exact Hrun|].
  exact (result_fields_come_from_solver Toy.service Toy.five_inputs [] _ _
           Hrun).
Defined.

Lemma one_log_line_per_image_witness :
  exists r s',
    _calibrate_camera_from_images Toy.service Toy.five_inputs (calib_init, [])
    = (r, s') /\
    exists lines rest,
      snd s'
      = [] ++ Log INFO (MsgStartCalibration (length Toy.five_inputs))
           :: lines ++ rest /\
      length lines = length Toy.five_inputs /\
      forallb is_image_line lines = true /\
      length (filter is_accept_line lines) = successful_detections (fst s').
Proof.
  do 2 eexists. split; [apply surjective_pairing|].
  exact (one_log_line_per_image Toy.service Toy.five_inputs [] _ _
           (surjective_pairing _)).
Defined.

Lemma no_jpeg_frame_is_unbound_witness :
  get_images (camera (Toy.board [Toy.png_board])) = Return [Toy.png_board] /\
  jpeg_frames [Toy.png_board] = [] /\
  get_poses (Toy.board [Toy.png_board]) [] (tt, [])
  = (Raise (mkExn UnboundLocalError
              "cannot access local variable 'viam_image'"),
     (tt, [])).
Proof.
  split; [reflexivity|]. split; [reflexivity|].
  apply (no_jpeg_frame_is_unbound (Toy.board [Toy.png_board]) [] []
                                  [Toy.png_board]); reflexivity.
Defined.

Lemma first_frame_is_analysed_witness :
  get_images (camera (Toy.board [Toy.png_board; Toy.jpeg_blank]))
  = Return [Toy.png_board; Toy.jpeg_blank] /\
  jpeg_frames [Toy.png_board; Toy.jpeg_blank] <> [] /\
  get_poses (Toy.board [Toy.png_board; Toy.jpeg_blank]) [] (tt, [])
  = call (Some (Some [1; 1; 1]))
         (pose_from_image (Toy.board [Toy.png_board; Toy.jpeg_blank])
                          [1; 1; 1])
         (tt, [] ++ [found_image_line]).
Proof.
  assert (Hsome : jpeg_frames [Toy.png_board; Toy.jpeg_blank] <> [])
    by (intros Hnone; discriminate Hnone).
  split; [reflexivity|]. split; [exact Hsome|].
  exact (first_frame_is_analysed
           (Toy.board [Toy.png_board; Toy.jpeg_blank]) [] []
           Toy.png_board [Toy.jpeg_blank] eq_refl Hsome).
Defined.


Lemma scalar_pattern_passes_validation_only_witness :
  is_scalar (attrs_get scalar_pattern_attributes "pattern_size") = true /\
  is_none (attrs_get scalar_pattern_attributes "square_size_mm") = false /\
  CameraCalibrationConfig.validate_config scalar_pattern_attributes
  = Return ([], []) /\
  CameraCalibrationConfig.reconfigure no_int_of_str (PyReturn tt) unconfigured
                                      scalar_pattern_attributes
  = (PyRaise not_iterable, unconfigured).
Proof.
  split; [reflexivity|]. split; [reflexivity|].
  apply (scalar_pattern_passes_validation_only no_int_of_str (PyReturn tt)
           unconfigured scalar_pattern_attributes); reflexivity.
Defined.

Lemma reconfigure_stores_integer_pattern_witness :
  attrs_get board_attributes "pattern_size"
  = VList (map (fun n => VFloat (F64.of_Z n)) [9; 6]) /\
  Forall (fun n => - 2 ^ 53 < n < 2 ^ 53) [9; 6] /\
  CameraCalibrationConfig.reconfigure no_int_of_str (PyReturn tt) unconfigured
                                      board_attributes
  = (PyReturn tt,
     CameraCalibrationConfig.mkAttributes
       [9; 6] (attrs_get board_attributes "square_size_mm")) /\
  forall f,
    attrs_get board_attributes "square_size_mm" = VFloat f ->
    CameraCalibrationConfig.service_of
      (snd (CameraCalibrationConfig.reconfigure no_int_of_str (PyReturn tt)
              unconfigured board_attributes))
    = Some (mkCalibration [9; 6] f).
Proof.
  assert (Hns : Forall (fun n => - 2 ^ 53 < n < 2 ^ 53) [9; 6])
    by (repeat constructor).
  split; [reflexivity|]. split; [exact Hns|].
  exact (reconfigure_stores_integer_pattern no_int_of_str (PyReturn tt)
           unconfigured board_attributes [9; 6] eq_refl Hns).
Defined.
